(** * PropertyValue: the valuation pipeline, its routing and its A2A envelopes

    A shallow embedding of the deterministic core of the repository:

    - [state.py]          the record threaded through the stages (a Python dict);
    - [mock_nodes.py]     the five offline stage functions;
    - [nodes.py]          the same five stages behind a language-model call;
    - [mock_graph.py]     the linear and the conditionally routed workflow;
    - [a2a_client.py]     request processing and envelope validation;
    - [error_handling.py] the degraded envelope.

    Modelling conventions.

    - A Python object is a [value]; a dict is a [gmap string value], so that
      an absent key, a key bound to [None] and a key bound to [0] stay three
      different things, as they are for [dict.get] and truthiness.
    - Python [int] is [Z].  Python [float] is modelled by exact rational
      arithmetic on [Q] (kept in lowest terms): rounding, infinities and NaN
      are outside the model.
    - A statement that can raise returns a [result]; the exception classes are
      those the modelled statements can raise, all subclasses of [Exception].
      A stage mutates the record in place; a stage that raises is modelled as
      yielding no record, since no caller in the repository looks at a record
      after a fault.
    - [random] is an oracle: every call site of [random.randint],
      [random.choice] and [random.uniform] is a field of a record of draws.
    - The language model of [nodes.py] is an oracle too: its answer is never
      read by the code, so only whether the call returns or raises matters. *)

From Stdlib Require Import ZArith QArith Qabs Lqa Lia String List Bool.
From stdpp Require Import base option list gmap strings fin_maps pretty.

#[local] Set Warnings "-register-all".

(* ===================================================================== *)
(** * Python values, exceptions and results                               *)
(* ===================================================================== *)

Inductive value : Type :=
| VNone
| VBool (b : bool)
| VInt (z : Z)
| VFloat (q : Q)
| VStr (s : string)
| VList (l : list value)
| VDict (d : gmap string value).

(** A dict with string keys: the record, its nested summaries, an envelope. *)
Abbreviation pydict := (gmap string value).

Inductive exn : Type :=
| KeyError (key : string)
| TypeError
| AttributeError
| ValueError
| ZeroDivisionError
| ExternalError (msg : string).

Inductive result (A : Type) : Type :=
| Ok (a : A)
| Raise (e : exn).
Arguments Ok {A} a.
Arguments Raise {A} e.

#[global] Instance result_ret : MRet result := λ A a, Ok a.
#[global] Instance result_bind : MBind result :=
  λ A B f m, match m with Ok a => f a | Raise e => Raise e end.

(** [try: body except Exception as e: handler e]. *)
Definition try_except {A} (body : result A) (handler : exn → result A) : result A :=
  match body with
  | Ok a => Ok a
  | Raise e => handler e
  end.

Module Py.

(** Numbers: [bool] is a subclass of [int]; mixed arithmetic goes to float. *)
Inductive num : Type :=
| NInt (z : Z)
| NFloat (q : Q).

Definition as_num (v : value) : option num :=
  match v with
  | VBool b => Some (NInt (if b then 1 else 0))
  | VInt z => Some (NInt z)
  | VFloat q => Some (NFloat q)
  | _ => None
  end.

(** An arithmetic operand: anything that is not a number raises [TypeError]
    in every arithmetic expression of the modelled code (the other operand
    is always an [int] or a [float] there). *)
Definition to_num (v : value) : result num :=
  match as_num v with
  | Some n => Ok n
  | None => Raise TypeError
  end.

Definition of_num (n : num) : value :=
  match n with
  | NInt z => VInt z
  | NFloat q => VFloat q
  end.

Definition to_Q (n : num) : Q :=
  match n with
  | NInt z => inject_Z z
  | NFloat q => q
  end.

Definition fadd (x y : Q) : Q := Qred (x + y).
Definition fsub (x y : Q) : Q := Qred (x - y).
Definition fmul (x y : Q) : Q := Qred (x * y).
Definition fdiv (x y : Q) : Q := Qred (x / y).

(** [a + b] *)
Definition add (a b : num) : num :=
  match a, b with
  | NInt x, NInt y => NInt (x + y)
  | _, _ => NFloat (fadd (to_Q a) (to_Q b))
  end.

(** [a / b]: true division, always a float. *)
Definition truediv (a b : num) : result num :=
  if Qeq_bool (to_Q b) 0 then Raise ZeroDivisionError
  else Ok (NFloat (fdiv (to_Q a) (to_Q b))).

(** [abs(a)] *)
Definition abs (a : num) : num :=
  match a with
  | NInt z => NInt (Z.abs z)
  | NFloat q => NFloat (Qabs q)
  end.

(** [a > b] on numbers. *)
Definition gt (a b : num) : bool := negb (Qle_bool (to_Q a) (to_Q b)).

(** Truth value of an object, as [if x:] and [not x] test it. *)
Definition truthy (v : value) : bool :=
  match v with
  | VNone => false
  | VBool b => b
  | VInt z => negb (Z.eqb z 0)
  | VFloat q => negb (Qeq_bool q 0)
  | VStr s => negb (String.eqb s "")
  | VList l => match l with [] => false | _ => true end
  | VDict d => negb (Nat.eqb (size d) 0)
  end.

(** [d.get(k)] and [d.get(k, dflt)]. *)
Definition get (d : pydict) (k : string) : value := default VNone (d !! k).
Definition get_or (d : pydict) (k : string) (dflt : value) : value :=
  default dflt (d !! k).

(** [d[k]] on a dict. *)
Definition item (d : pydict) (k : string) : result value :=
  match d !! k with
  | Some v => Ok v
  | None => Raise (KeyError k)
  end.

(** [v[k]] with a string subscript, on any object: strings and lists want
    integer indices, the other objects are not subscriptable. *)
Definition subscript (v : value) (k : string) : result value :=
  match v with
  | VDict d => item d k
  | _ => Raise TypeError
  end.

(** [len(v)] *)
Definition len (v : value) : result Z :=
  match v with
  | VStr s => Ok (Z.of_nat (String.length s))
  | VList l => Ok (Z.of_nat (length l))
  | VDict d => Ok (Z.of_nat (size d))
  | _ => Raise TypeError
  end.

(** [k in s] on strings: substring search. *)
Fixpoint is_substring (k s : string) : bool :=
  String.prefix k s ||
  match s with
  | EmptyString => false
  | String _ s' => is_substring k s'
  end.

(** [v == k] for a string [k]. *)
Definition eq_str (v : value) (k : string) : bool :=
  match v with
  | VStr s => String.eqb s k
  | _ => false
  end.

(** [k in v] for a string [k]: key of a dict, element of a list, substring
    of a string; [TypeError] on objects that are not containers. *)
Definition contains (k : string) (v : value) : result bool :=
  match v with
  | VDict d => Ok (bool_decide (is_Some (d !! k)))
  | VList l => Ok (existsb (λ x, eq_str x k) l)
  | VStr s => Ok (is_substring k s)
  | _ => Raise TypeError
  end.

(** [repr] of a list of plain identifiers, as an f-string prints
    [missing_fields]: ['a', 'b']. *)
Fixpoint join (sep : string) (l : list string) : string :=
  match l with
  | [] => ""
  | [x] => x
  | x :: l' => x +:+ sep +:+ join sep l'
  end.

Definition repr_str (s : string) : string := "'" +:+ s +:+ "'".

Definition repr_str_list (l : list string) : string :=
  "[" +:+ join ", " (map repr_str l) +:+ "]".

(** [round(x)] to the nearest integer, ties to even, for [x >= 0]. *)
Definition round_half_even (x : Q) : Z :=
  let n := Qnum x in
  let d := Z.pos (Qden x) in
  let t := (n / d)%Z in
  let r := (n mod d)%Z in
  match (2 * r ?= d)%Z with
  | Lt => t
  | Gt => (t + 1)%Z
  | Eq => if Z.even t then t else (t + 1)%Z
  end.

(** [format(x, "+.1f")]: sign, integer part, one decimal, rounding the
    exact rational; exact for the integers the pipeline formats. *)
Definition format_plus_1f (n : num) : string :=
  let q := to_Q n in
  let tenths := round_half_even (Qabs q * inject_Z 10) in
  (if Qle_bool 0 q then "+" else "-")
    +:+ pretty (tenths / 10)%Z +:+ "." +:+ pretty (tenths mod 10)%Z.

(** [format(v, ",.0f")] is only evaluated for its faults in the modelled
    code (the text is thrown away): numbers format, a string has no [f]
    presentation, the other objects take no format specification. *)
Definition check_format_f (v : value) : result unit :=
  match v with
  | VBool _ | VInt _ | VFloat _ => Ok tt
  | VStr _ => Raise ValueError
  | _ => Raise TypeError
  end.

(** [str(v)] as an f-string interpolates it.  Exact for [None], booleans,
    integers and strings, the types of the interpolated record fields; the
    text of a float or of a container is interpreter-defined and only
    sketched. *)
Definition str (v : value) : string :=
  match v with
  | VNone => "None"
  | VBool true => "True"
  | VBool false => "False"
  | VInt z => pretty z
  | VStr s => s
  | VFloat q => pretty (Qnum q) +:+ "/" +:+ pretty (Z.pos (Qden q))
  | VList _ => "[...]"
  | VDict _ => "{...}"
  end.

End Py.

(* ===================================================================== *)
(** * state.py: the record                                                *)
(* ===================================================================== *)

(** [PropertyValuationState] is a [TypedDict]: at run time a plain dict.
    [state[k] = v] is [<[k:=v]> state]. *)

(** [state[k].append(x)]: the key must exist and hold a list. *)
Definition append_to (k : string) (x : value) (state : pydict) : result pydict :=
  match state !! k with
  | None => Raise (KeyError k)
  | Some (VList l) => Ok (<[k := VList (l ++ [x])]> state)
  | Some _ => Raise AttributeError
  end.

(** [if k not in state: state[k] = []] *)
Definition ensure_list (k : string) (state : pydict) : pydict :=
  match state !! k with
  | None => <[k := VList []]> state
  | Some _ => state
  end.

(** The record both entry points build ([a2a_client.py] 52-83,
    [main.py] 23-54): attributes copied from the request with [dict.get],
    every derived and result field empty. *)
Definition initial_state (request_data : pydict)
    (request_id requesting_agent : value) : pydict :=
  let fields : list (string * value) :=
    [ ("property_address", Py.get_or request_data "property_address" (VStr ""));
      ("property_type", Py.get_or request_data "property_type" (VStr "single_family"));
      ("square_footage", Py.get request_data "square_footage");
      ("bedrooms", Py.get request_data "bedrooms");
      ("bathrooms", Py.get request_data "bathrooms");
      ("year_built", Py.get request_data "year_built");
      ("lot_size", Py.get request_data "lot_size");
      ("comparable_properties", VList []);
      ("market_trends", VDict ∅);
      ("neighborhood_data", VDict ∅);
      ("estimated_value", VNone);
      ("confidence_level", VNone);
      ("valuation_range", VNone);
      ("comparable_analysis", VDict ∅);
      ("market_adjustment", VDict ∅);
      ("final_assessment", VDict ∅);
      ("current_step", VStr "initialized");
      ("errors", VList []);
      ("warnings", VList []);
      ("request_id", request_id);
      ("requesting_agent", requesting_agent);
      ("response_data", VNone) ] in
  list_to_map fields.

(* ===================================================================== *)
(** * The oracles: random draws and the language model                    *)
(* ===================================================================== *)

(** The ten [random.randint] calls of the comparables stage, in source
    order; the suffix is the comparable they belong to. *)
Record comparables_draws : Type := {
  price_1 : Z;  (* randint(-50000, 50000) *)
  sqft_1 : Z;   (* randint(-200, 200) *)
  days_1 : Z;   (* randint(15, 60) *)
  price_2 : Z;  (* randint(-50000, 50000) *)
  sqft_2 : Z;   (* randint(-300, 300) *)
  beds_2 : Z;   (* randint(-1, 1) *)
  days_2 : Z;   (* randint(10, 45) *)
  price_3 : Z;  (* randint(-40000, 40000) *)
  sqft_3 : Z;   (* randint(-250, 250) *)
  days_3 : Z    (* randint(20, 80) *)
}.

Definition in_range (lo hi x : Z) : bool := (lo <=? x)%Z && (x <=? hi)%Z.

(** [randint(a, b)] returns an integer of the closed interval. *)
Definition comparables_draws_valid (d : comparables_draws) : bool :=
  in_range (-50000) 50000 (price_1 d) && in_range (-200) 200 (sqft_1 d)
  && in_range 15 60 (days_1 d)
  && in_range (-50000) 50000 (price_2 d) && in_range (-300) 300 (sqft_2 d)
  && in_range (-1) 1 (beds_2 d) && in_range 10 45 (days_2 d)
  && in_range (-40000) 40000 (price_3 d) && in_range (-250) 250 (sqft_3 d)
  && in_range 20 80 (days_3 d).

(** The outcomes of [random.choice] on the three-element lists of the
    market stage. *)
Inductive direction : Type := RISING | STABLE | DECLINING.
Inductive level : Type := LOW | MODERATE | HIGH.
Inductive access : Type := EXCELLENT | GOOD | FAIR.

Definition direction_name (x : direction) : string :=
  match x with RISING => "RISING" | STABLE => "STABLE" | DECLINING => "DECLINING" end.
Definition level_name (x : level) : string :=
  match x with LOW => "LOW" | MODERATE => "MODERATE" | HIGH => "HIGH" end.
Definition access_name (x : access) : string :=
  match x with EXCELLENT => "EXCELLENT" | GOOD => "GOOD" | FAIR => "FAIR" end.

Record market_draws : Type := {
  market_direction : direction;   (* choice(["RISING", "STABLE", "DECLINING"]) *)
  price_change_6_months : Q;      (* round(uniform(-5.0, 8.0), 2) *)
  average_days_on_market : Z;     (* randint(25, 65) *)
  inventory_level : level;        (* choice(["LOW", "MODERATE", "HIGH"]) *)
  buyer_demand : level;           (* choice(["HIGH", "MODERATE", "LOW"]) *)
  school_rating : Z;              (* randint(6, 10) *)
  crime_rate : level;             (* choice(["LOW", "MODERATE", "HIGH"]) *)
  walkability_score : Z;          (* randint(40, 95) *)
  transportation_access : access  (* choice(["EXCELLENT", "GOOD", "FAIR"]) *)
}.

(** Everything one run of a workflow draws. *)
Record draws : Type := {
  comparables_of : comparables_draws;
  market_of : market_draws
}.

(** [get_llm(); llm.invoke(prompt)] per stage of [nodes.py]: returns (the
    answer is dropped) or raises. *)
Record llm_oracle : Type := {
  llm_data_collection : result unit;
  llm_comparables : result unit;
  llm_market_analysis : result unit;
  llm_final_valuation : result unit;
  llm_a2a_communication : result unit
}.

(** An f-string that subscripts the record: [state[k]] must exist. *)
Definition reads (state : pydict) (k : string) : result unit :=
  _ ← Py.item state k; Ok tt.

(* ===================================================================== *)
(** * Stage 1: data intake                                                *)
(* ===================================================================== *)

Definition required_fields : list string :=
  ["square_footage"; "bedrooms"; "bathrooms"; "year_built"].

(** [for field in required_fields: if not state.get(field): ...append(field)] *)
Definition missing_fields (state : pydict) : list string :=
  List.filter (λ field, negb (Py.truthy (Py.get state field))) required_fields.

(** [max(0, 100 - (len(missing_fields) * 20))] *)
Definition data_quality_score (state : pydict) : Z :=
  Z.max 0 (100 - Z.of_nat (length (missing_fields state)) * 20).

Definition data_completeness (state : pydict) : string :=
  let n := length (missing_fields state) in
  if Nat.eqb n 0 then "COMPLETE"
  else if Nat.leb n 2 then "PARTIAL"
  else "INCOMPLETE".

Definition insufficient_message (state : pydict) : string :=
  "Insufficient property data: missing " +:+ Py.repr_str_list (missing_fields state).

Definition partial_message (state : pydict) : string :=
  "Some property data missing: " +:+ Py.repr_str_list (missing_fields state).

(** [mock_nodes.py] 11-38. *)
Definition mock_property_data_collection_node (state : pydict) : result pydict :=
  let completeness := data_completeness state in
  let state' := <["current_step" := VStr "property_data_collected"]> state in
  if String.eqb completeness "INCOMPLETE" then
    append_to "errors" (VStr (insufficient_message state)) state'
  else if String.eqb completeness "PARTIAL" then
    append_to "warnings" (VStr (partial_message state)) state'
  else Ok state'.

(** [nodes.py] 36-90: the prompt subscripts the address and the type, the
    model is called, and each log is created when the record lacks it. *)
Definition property_data_collection_node (llm : llm_oracle) (state : pydict)
    : result pydict :=
  _ ← reads state "property_address";
  _ ← reads state "property_type";
  _ ← llm_data_collection llm;
  let completeness := data_completeness state in
  let state' := <["current_step" := VStr "property_data_collected"]> state in
  if String.eqb completeness "INCOMPLETE" then
    append_to "errors" (VStr (insufficient_message state)) (ensure_list "errors" state')
  else if String.eqb completeness "PARTIAL" then
    append_to "warnings" (VStr (partial_message state)) (ensure_list "warnings" state')
  else Ok state'.

(* ===================================================================== *)
(** * Stage 2: comparables analysis                                       *)
(* ===================================================================== *)

(** [v + n] for a number [n]. *)
Definition plus (v : value) (n : Py.num) : result value :=
  a ← Py.to_num v; Ok (Py.of_num (Py.add a n)).

Definition comparable (address : string) (sold_price : Z)
    (square_footage bedrooms bathrooms : value) (sale_date : string)
    (days_on_market : Z) : value :=
  VDict (list_to_map
    [ ("address", VStr address);
      ("sold_price", VInt sold_price);
      ("square_footage", square_footage);
      ("bedrooms", bedrooms);
      ("bathrooms", bathrooms);
      ("sale_date", VStr sale_date);
      ("days_on_market", VInt days_on_market) ]).

(** The three sold prices, in list order. *)
Definition sold_prices (d : comparables_draws) : list Z :=
  [ (450000 + price_1 d)%Z; (475000 + price_2 d)%Z; (435000 + price_3 d)%Z ].

(** The list literal [comparable_properties]; the entries are evaluated in
    source order, so the first failing addition decides the fault. *)
Definition comparable_properties (state : pydict) (d : comparables_draws)
    : result (list value) :=
  let base_sqft := Py.get_or state "square_footage" (VInt 2000) in
  let bedrooms := Py.get_or state "bedrooms" (VInt 3) in
  let bathrooms := Py.get_or state "bathrooms" (VInt 2) in
  sqft1 ← plus base_sqft (Py.NInt (sqft_1 d));
  sqft2 ← plus base_sqft (Py.NInt (sqft_2 d));
  beds2 ← plus bedrooms (Py.NInt (beds_2 d));
  sqft3 ← plus base_sqft (Py.NInt (sqft_3 d));
  baths3 ← plus bathrooms (Py.NFloat (5 # 10));
  Ok [ comparable "123 Similar St, Same City" (450000 + price_1 d)
         sqft1 bedrooms bathrooms "2024-10-15" (days_1 d);
       comparable "456 Nearby Ave, Same City" (475000 + price_2 d)
         sqft2 beds2 bathrooms "2024-11-02" (days_2 d);
       comparable "789 Close Blvd, Same City" (435000 + price_3 d)
         sqft3 bedrooms baths3 "2024-09-28" (days_3 d) ].

(** [sum(comp['sold_price'] for comp in comparable_properties)
     / len(comparable_properties)] *)
Definition avg_price (d : comparables_draws) : Q :=
  Py.fdiv (inject_Z (fold_left Z.add (sold_prices d) 0%Z))
          (inject_Z (Z.of_nat (length (sold_prices d)))).

(** The divisor branch: the subject's square footage when it is truthy,
    2000 otherwise. *)
Definition avg_price_per_sqft (state : pydict) (d : comparables_draws)
    : result Q :=
  if Py.truthy (Py.get state "square_footage") then
    sqft ← Py.item state "square_footage";
    n ← Py.to_num sqft;
    q ← Py.truediv (Py.NFloat (avg_price d)) n;
    Ok (Py.to_Q q)
  else Ok (Py.fdiv (avg_price d) (inject_Z 2000)).

Definition comparable_analysis (d : comparables_draws) (per_sqft : Q) : value :=
  VDict (list_to_map
    [ ("number_of_comparables", VInt (Z.of_nat (length (sold_prices d))));
      ("average_sale_price", VFloat (avg_price d));
      ("price_per_square_foot", VFloat per_sqft);
      ("comparable_quality", VStr "GOOD");
      ("price_range_low", VFloat (Py.fmul (avg_price d) (9 # 10)));
      ("price_range_high", VFloat (Py.fmul (avg_price d) (11 # 10))) ]).

(** Both variants: build the list, run [enrich] (nothing in the offline
    variant; prompt and model call in [nodes.py]), summarise, write. *)
Definition comparables_stage (enrich : pydict → result unit)
    (state : pydict) (d : comparables_draws) : result pydict :=
  comps ← comparable_properties state d;
  _ ← enrich state;
  per_sqft ← avg_price_per_sqft state d;
  Ok (<["current_step" := VStr "comparables_analyzed"]>
      (<["comparable_analysis" := comparable_analysis d per_sqft]>
      (<["comparable_properties" := VList comps]> state))).

(** [mock_nodes.py] 40-96. *)
Definition mock_comparable_properties_node (state : pydict)
    (d : comparables_draws) : result pydict :=
  comparables_stage (λ _, Ok tt) state d.

(** [nodes.py] 92-171. *)
Definition comparable_properties_node (llm : llm_oracle) (state : pydict)
    (d : comparables_draws) : result pydict :=
  comparables_stage
    (λ state, _ ← reads state "property_type"; llm_comparables llm) state d.

(* ===================================================================== *)
(** * Stage 3: market analysis                                            *)
(* ===================================================================== *)

Definition market_trends (m : market_draws) : pydict :=
  list_to_map
    [ ("market_direction", VStr (direction_name (market_direction m)));
      ("price_change_6_months", VFloat (price_change_6_months m));
      ("average_days_on_market", VInt (average_days_on_market m));
      ("inventory_level", VStr (level_name (inventory_level m)));
      ("buyer_demand", VStr (level_name (buyer_demand m))) ].

Definition neighborhood_data (m : market_draws) : pydict :=
  list_to_map
    [ ("school_rating", VInt (school_rating m));
      ("crime_rate", VStr (level_name (crime_rate m)));
      ("walkability_score", VInt (walkability_score m));
      ("nearby_amenities", VList [VStr "shopping"; VStr "parks"; VStr "restaurants"]);
      ("transportation_access", VStr (access_name (transportation_access m))) ].

(** [a if d[k] == x else b if d[k] == y else c] on a string entry. *)
Definition pick (d : pydict) (k x : string) (a : Z) (y : string) (b c : Z) : Z :=
  if Py.eq_str (Py.get d k) x then a
  else if Py.eq_str (Py.get d k) y then b
  else c.

Definition trend_adjustment (trends : pydict) : Z :=
  pick trends "market_direction" "RISING" 2 "DECLINING" (-2) 0.
Definition demand_adjustment (trends : pydict) : Z :=
  pick trends "buyer_demand" "HIGH" 3 "LOW" (-3) 0.
Definition inventory_adjustment (trends : pydict) : Z :=
  pick trends "inventory_level" "HIGH" (-2) "LOW" 2 0.

(** [5 if rating >= 9 else 2 if rating >= 7 else -2]; the rating is the
    integer just drawn. *)
Definition neighborhood_adjustment (neighborhood : pydict) : Z :=
  match Py.get neighborhood "school_rating" with
  | VInt r => if (9 <=? r)%Z then 5 else if (7 <=? r)%Z then 2 else -2
  | _ => -2
  end.

Definition market_adjustment_factors (m : market_draws) : list (string * Z) :=
  [ ("trend_adjustment", trend_adjustment (market_trends m));
    ("demand_adjustment", demand_adjustment (market_trends m));
    ("inventory_adjustment", inventory_adjustment (market_trends m));
    ("neighborhood_adjustment", neighborhood_adjustment (neighborhood_data m)) ].

(** [sum(market_adjustment_factors.values())] *)
Definition total_market_adjustment (m : market_draws) : Z :=
  fold_left Z.add (map snd (market_adjustment_factors m)) 0%Z.

Definition market_confidence (total : Z) : string :=
  if (Z.abs total <=? 5)%Z then "HIGH"
  else if (Z.abs total <=? 10)%Z then "MEDIUM"
  else "LOW".

Definition market_adjustment (m : market_draws) : pydict :=
  list_to_map
    [ ("adjustment_factors",
       VDict (list_to_map (map (λ kv, (fst kv, VInt (snd kv)))
                               (market_adjustment_factors m))));
      ("total_adjustment_percent",
       VInt (Z.max (-20) (Z.min 20 (total_market_adjustment m))));
      ("market_confidence", VStr (market_confidence (total_market_adjustment m))) ].

Definition market_stage (enrich : pydict → result unit)
    (state : pydict) (m : market_draws) : result pydict :=
  _ ← enrich state;
  Ok (<["current_step" := VStr "market_analyzed"]>
      (<["market_adjustment" := VDict (market_adjustment m)]>
      (<["neighborhood_data" := VDict (neighborhood_data m)]>
      (<["market_trends" := VDict (market_trends m)]> state)))).

(** [mock_nodes.py] 98-139. *)
Definition mock_market_analysis_node (state : pydict) (m : market_draws)
    : result pydict :=
  market_stage (λ _, Ok tt) state m.

(** [nodes.py] 173-237. *)
Definition market_analysis_node (llm : llm_oracle) (state : pydict)
    (m : market_draws) : result pydict :=
  market_stage
    (λ state, _ ← reads state "property_address"; llm_market_analysis llm) state m.

(* ===================================================================== *)
(** * Stage 4: final valuation                                            *)
(* ===================================================================== *)

(** The locals of the stage that the later statements use. *)
Record valuation : Type := {
  base_value : value;
  market_adjustment_percent : value;
  base : Py.num;      (* the number [base_value] denotes *)
  percent : Py.num;   (* the number [market_adjustment_percent] denotes *)
  market_adjusted_value : Q;
  number_of_comparables : Z;
  data_quality_factors : list string;
  confidence_level : string;
  confidence_score : Z;
  range_factor : Q;
  min_value : Q;
  max_value : Q
}.

(** The three appends to [data_quality_factors], in source order. *)
Definition quality_factors (state : pydict) (n_comparables : Z)
    (percent : Py.num) : list string :=
  (if negb (Py.truthy (Py.get state "square_footage"))
   then ["Missing square footage"] else [])
  ++ (if (n_comparables <? 3)%Z then ["Limited comparables"] else [])
  ++ (if Py.gt (Py.abs percent) (Py.NInt 10)
      then ["High market volatility"] else []).

Definition confidence_of (factors : list string) : string * Z :=
  if Nat.eqb (length factors) 0 then ("HIGH", 85%Z)
  else if Nat.leb (length factors) 1 then ("MEDIUM", 70%Z)
  else ("LOW", 55%Z).

Definition range_factor_of (confidence : string) : Q :=
  if String.eqb confidence "HIGH" then 5 # 100
  else if String.eqb confidence "MEDIUM" then 10 # 100
  else 15 # 100.

(** [mock_nodes.py] 144-174, [nodes.py] 242-272. *)
Definition valuation_of (state : pydict) : result valuation :=
  analysis ← Py.item state "comparable_analysis";
  base_value ← Py.subscript analysis "average_sale_price";
  adjustment ← Py.item state "market_adjustment";
  market_adjustment_percent ← Py.subscript adjustment "total_adjustment_percent";
  p ← Py.to_num market_adjustment_percent;
  ratio ← Py.truediv p (Py.NInt 100);
  b ← Py.to_num base_value;
  let adjusted := Py.fmul (Py.to_Q b) (Py.fadd 1 (Py.to_Q ratio)) in
  comps ← Py.item state "comparable_properties";
  n ← Py.len comps;
  let factors := quality_factors state n p in
  let confidence := confidence_of factors in
  let factor := range_factor_of (fst confidence) in
  Ok {| base_value := base_value;
        market_adjustment_percent := market_adjustment_percent;
        base := b;
        percent := p;
        market_adjusted_value := adjusted;
        number_of_comparables := n;
        data_quality_factors := factors;
        confidence_level := fst confidence;
        confidence_score := snd confidence;
        range_factor := factor;
        min_value := Py.fmul adjusted (Py.fsub 1 factor);
        max_value := Py.fmul adjusted (Py.fadd 1 factor) |}.

Definition valuation_range (v : valuation) : value :=
  VDict (list_to_map
    [ ("min_value", VFloat (min_value v));
      ("max_value", VFloat (max_value v)) ]).

Definition final_assessment (v : valuation) : value :=
  VDict (list_to_map
    [ ("base_value", base_value v);
      ("market_adjustment_percent", market_adjustment_percent v);
      ("estimated_value", VFloat (market_adjusted_value v));
      ("confidence_score", VInt (confidence_score v));
      ("valuation_method", VStr "SALES_COMPARISON_APPROACH");
      ("key_value_drivers",
       VList [ VStr "Comparable sales analysis";
               VStr "Current market conditions";
               VStr "Neighborhood characteristics" ]);
      ("limitations", VList (map VStr (data_quality_factors v))) ]).

Definition appraiser_notes (opening : string) (v : valuation) : string :=
  opening +:+ pretty (number_of_comparables v)
    +:+ " comparable sales with "
    +:+ Py.format_plus_1f (percent v)
    +:+ "% market adjustment".

Definition response_data (opening : string) (address : value) (v : valuation)
    : value :=
  VDict (list_to_map
    [ ("property_address", address);
      ("estimated_value", VFloat (market_adjusted_value v));
      ("valuation_range", valuation_range v);
      ("confidence_level", VStr (confidence_level v));
      ("confidence_score", VInt (confidence_score v));
      ("valuation_date", VStr "2024-12-15");
      ("appraiser_notes", VStr (appraiser_notes opening v)) ]).

(** Both variants: the locals, [enrich], the two summaries, the six writes.
    No statement writes a [confidence_score] key into the record. *)
Definition final_valuation_stage (enrich : pydict → result unit)
    (opening : string) (state : pydict) : result pydict :=
  v ← valuation_of state;
  _ ← enrich state;
  address ← Py.item state "property_address";
  Ok (<["current_step" := VStr "valuation_completed"]>
      (<["response_data" := response_data opening address v]>
      (<["final_assessment" := final_assessment v]>
      (<["valuation_range" := valuation_range v]>
      (<["confidence_level" := VStr (confidence_level v)]>
      (<["estimated_value" := VFloat (market_adjusted_value v)]> state)))))).

(** [mock_nodes.py] 141-208. *)
Definition mock_final_valuation_node (state : pydict) : result pydict :=
  final_valuation_stage (λ _, Ok tt) "Mock valuation based on " state.

(** [nodes.py] 239-325. *)
Definition final_valuation_node (llm : llm_oracle) (state : pydict)
    : result pydict :=
  final_valuation_stage
    (λ state, _ ← reads state "property_address"; llm_final_valuation llm)
    "Valuation based on " state.

(* ===================================================================== *)
(** * Stage 5: response dispatch                                          *)
(* ===================================================================== *)

(** The text of the dispatch warning:
    [f"... sent to {state['requesting_agent']} for request
       {state.get('request_id', 'N/A')}"]. *)
Definition dispatch_message (opening : string) (state : pydict) : string :=
  opening +:+ Py.str (Py.get state "requesting_agent")
    +:+ " for request "
    +:+ Py.str (Py.get_or state "request_id" (VStr "N/A")).

(** Both variants: the guard on requester and payload, [enrich] (the canned
    summary offline, prompt and model call in [nodes.py]), then the log. *)
Definition dispatch_stage (enrich : pydict → result unit) (opening : string)
    (state : pydict) : result pydict :=
  if Py.truthy (Py.get state "requesting_agent")
     && Py.truthy (Py.get state "response_data") then
    _ ← enrich state;
    let state' := <["current_step" := VStr "a2a_response_sent"]> state in
    append_to "warnings" (VStr (dispatch_message opening state))
              (ensure_list "warnings" state')
  else Ok (<["current_step" := VStr "valuation_ready_for_use"]> state).

(** The f-string [mock_llm_response] ([mock_nodes.py] 215-228): its text is
    dropped, its subscripts and its [:,.0f] can raise. *)
Definition mock_llm_response (state : pydict) : result unit :=
  _ ← reads state "requesting_agent";
  _ ← reads state "property_address";
  payload ← Py.item state "response_data";
  estimate ← Py.subscript payload "estimated_value";
  _ ← Py.check_format_f estimate;
  _ ← Py.subscript payload "confidence_level";
  _ ← Py.subscript payload "confidence_score";
  _ ← Py.subscript payload "appraiser_notes";
  Ok tt.

(** [mock_nodes.py] 210-238. *)
Definition mock_a2a_communication_node (state : pydict) : result pydict :=
  dispatch_stage mock_llm_response "Mock response sent to " state.

(** [nodes.py] 327-358: [json.dumps] accepts every [value], so the prompt
    cannot raise; the model call can. *)
Definition a2a_communication_node (llm : llm_oracle) (state : pydict)
    : result pydict :=
  dispatch_stage (λ _, llm_a2a_communication llm) "Response sent to " state.

(* ===================================================================== *)
(** * mock_graph.py: the two workflows and their runner                   *)
(* ===================================================================== *)

Inductive node_name : Type :=
| data_collection
| comparables
| market_analysis
| final_valuation
| a2a_communication.

(** What leaves a node: [add_edge] to a node or to [END] ([None]), or
    [add_conditional_edges] with a routing function and its path map.  A
    routing function sees the record the node returned and may append to it. *)
Inductive edge : Type :=
| add_edge (target : option node_name)
| add_conditional_edges (router : pydict → result (string * pydict))
                        (path_map : list (string * node_name)).

Record workflow : Type := {
  node : node_name → draws → pydict → result pydict;
  entry_point : node_name;
  edge_from : node_name → edge
}.

(** The five [add_node] calls, the same in both workflows. *)
Definition mock_nodes (n : node_name) (d : draws) (state : pydict)
    : result pydict :=
  match n with
  | data_collection => mock_property_data_collection_node state
  | comparables => mock_comparable_properties_node state (comparables_of d)
  | market_analysis => mock_market_analysis_node state (market_of d)
  | final_valuation => mock_final_valuation_node state
  | a2a_communication => mock_a2a_communication_node state
  end.

(** [mock_graph.py] 30-56. *)
Definition create_mock_property_valuation_workflow : workflow :=
  {| node := mock_nodes;
     entry_point := data_collection;
     edge_from := λ n,
       match n with
       | data_collection => add_edge (Some comparables)
       | comparables => add_edge (Some market_analysis)
       | market_analysis => add_edge (Some final_valuation)
       | final_valuation => add_edge (Some a2a_communication)
       | a2a_communication => add_edge None
       end |}.

(** [mock_graph.py] 61-65. *)
Definition should_continue_after_data_collection (state : pydict)
    : result (string * pydict) :=
  n ← Py.len (Py.get_or state "errors" (VList []));
  if (0 <? n)%Z then Ok ("a2a_communication", state)
  else Ok ("comparables", state).

(** [mock_graph.py] 67-74. *)
Definition should_continue_after_comparables (state : pydict)
    : result (string * pydict) :=
  analysis ← Py.item state "comparable_analysis";
  quality ← Py.subscript analysis "comparable_quality";
  if Py.eq_str quality "POOR" then
    state' ← append_to "warnings" (VStr "Limited comparable data available")
                       (ensure_list "warnings" state);
    Ok ("market_analysis", state')
  else Ok ("market_analysis", state).

(** [mock_graph.py] 58-112. *)
Definition create_mock_conditional_property_valuation_workflow : workflow :=
  {| node := mock_nodes;
     entry_point := data_collection;
     edge_from := λ n,
       match n with
       | data_collection =>
           add_conditional_edges should_continue_after_data_collection
             [ ("comparables", comparables);
               ("a2a_communication", a2a_communication) ]
       | comparables =>
           add_conditional_edges should_continue_after_comparables
             [ ("market_analysis", market_analysis) ]
       | market_analysis => add_edge (Some final_valuation)
       | final_valuation => add_edge (Some a2a_communication)
       | a2a_communication => add_edge None
       end |}.

(** One run: the nodes executed so far, each with the record it returned,
    and how the run ended. *)
Record run : Type := {
  history : list (node_name * pydict);
  outcome : result pydict
}.

Fixpoint lookup_path (label : string) (path_map : list (string * node_name))
    : option node_name :=
  match path_map with
  | [] => None
  | (l, n) :: rest => if String.eqb l label then Some n else lookup_path label rest
  end.

(** The compiled graph, one node per step, at most [limit] steps (the
    library stops a run that exceeds its recursion limit). *)
Fixpoint run_from (limit : nat) (w : workflow) (d : draws) (n : node_name)
    (state : pydict) (done : list (node_name * pydict)) : run :=
  match limit with
  | O => {| history := done; outcome := Raise (ExternalError "recursion limit") |}
  | S limit' =>
      match node w n d state with
      | Raise e => {| history := done; outcome := Raise e |}
      | Ok state' =>
          let done' := done ++ [(n, state')] in
          match edge_from w n with
          | add_edge None => {| history := done'; outcome := Ok state' |}
          | add_edge (Some next) => run_from limit' w d next state' done'
          | add_conditional_edges router path_map =>
              match router state' with
              | Raise e => {| history := done'; outcome := Raise e |}
              | Ok (label, state'') =>
                  match lookup_path label path_map with
                  | None => {| history := done'; outcome := Raise (KeyError label) |}
                  | Some next => run_from limit' w d next state'' done'
                  end
              end
          end
      end
  end.

(** [app.invoke(initial_state)] with the library's default limit. *)
Definition invoke (w : workflow) (d : draws) (state : pydict) : run :=
  run_from 25 w d (entry_point w) state [].

(** The stages a run executed, in order. *)
Definition executed (r : run) : list node_name := map fst (history r).

(* ===================================================================== *)
(** * a2a_client.py                                                       *)
(* ===================================================================== *)

Section A2APropertyValuationClient.

(** [self.workflow.invoke], [self.agent_name], and [str(e)] for the
    exception an invocation raised. *)
Variable workflow_invoke : pydict → result pydict.
Variable agent_name : string.
Variable str_of_exception : exn → string.

(** [a2a_client.py] 36-108; [request_id] is the fresh [uuid4]. *)
Definition process_valuation_request (request_id : string)
    (request_data : pydict) (requesting_agent : string) : result pydict :=
  let initial_state :=
    initial_state request_data (VStr request_id) (VStr requesting_agent) in
  try_except
    (result ← workflow_invoke initial_state;
     Ok (list_to_map
       [ ("status", VStr "SUCCESS");
         ("request_id", VStr request_id);
         ("agent", VStr agent_name);
         ("data", Py.get_or result "response_data" (VDict ∅));
         ("errors", Py.get_or result "errors" (VList []));
         ("warnings", Py.get_or result "warnings" (VList [])) ]))
    (λ e,
     Ok (list_to_map
       [ ("status", VStr "ERROR");
         ("request_id", VStr request_id);
         ("agent", VStr agent_name);
         ("error_message", VStr (str_of_exception e));
         ("data", VNone) ])).

End A2APropertyValuationClient.

(** [all(field in data for field in fields)]: stops at the first [False],
    raises where [in] does. *)
Fixpoint all_in (fields : list string) (data : value) : result bool :=
  match fields with
  | [] => Ok true
  | field :: rest =>
      Py.contains field data ≫= λ b : bool,
      if b then all_in rest data else Ok false
  end.

(** [a2a_client.py] 170-190. *)
Definition validate_a2a_response (response : pydict) : result bool :=
  let required_fields := ["status"; "request_id"; "agent"] in
  if Py.eq_str (Py.get response "status") "SUCCESS" then
    let data := Py.get_or response "data" (VDict ∅) in
    let required_data_fields :=
      ["estimated_value"; "confidence_level"; "valuation_range"] in
    all_in required_fields (VDict response) ≫= λ b : bool,
    if b then all_in required_data_fields data else Ok false
  else all_in required_fields (VDict response).

(* ===================================================================== *)
(** * error_handling.py                                                   *)
(* ===================================================================== *)

(** [error_handling.py] 105-132. *)
Definition create_safe_response (state : pydict) : pydict :=
  let response_data : pydict :=
    list_to_map
      [ ("property_address", Py.get_or state "property_address" (VStr "Unknown"));
        ("estimated_value", VNone);
        ("confidence_level", VStr "LOW");
        ("confidence_score", VInt 0);
        ("valuation_range", VNone);
        ("valuation_date", VNone);
        ("appraiser_notes",
         VStr "Valuation could not be completed due to system error") ] in
  let response_data :=
    if Py.truthy (Py.get state "estimated_value") then
      <["valuation_range" := Py.get state "valuation_range"]>
      (<["confidence_score" := Py.get_or state "confidence_score" (VInt 0)]>
      (<["confidence_level" := Py.get_or state "confidence_level" (VStr "LOW")]>
      (<["estimated_value" := Py.get state "estimated_value"]> response_data)))
    else response_data in
  list_to_map
    [ ("status",
       VStr (if Py.truthy (Py.get response_data "estimated_value")
             then "PARTIAL_SUCCESS" else "ERROR"));
      ("agent", VStr "PropertyValuation");
      ("data", VDict response_data);
      ("errors", Py.get_or state "errors" (VList []));
      ("warnings", Py.get_or state "warnings" (VList [])) ].

(* ===================================================================== *)
(** * Reading a record, and the sample inputs the examples run on         *)
(* ===================================================================== *)

(** [d.get(k1, {}).get(k2)] for a nested summary; [None] when the outer
    entry is not a dict. *)
Definition nested (d : pydict) (k1 k2 : string) : option value :=
  match d !! k1 with
  | Some (VDict inner) => inner !! k2
  | _ => None
  end.

(** The warning and error logs as the stages see them: a missing key reads
    as the empty list ([state.get('warnings', [])]). *)
Definition log (k : string) (state : pydict) : value :=
  Py.get_or state k (VList []).

(** The request of the repository's own test mode ([main.py] 142-150). *)
Definition sample_request : pydict :=
  list_to_map
    [ ("property_address", VStr "123 Test Street, Sample City, TX 75001");
      ("property_type", VStr "single_family");
      ("square_footage", VInt 2200);
      ("bedrooms", VInt 4);
      ("bathrooms", VFloat (5 # 2));
      ("year_built", VInt 2010);
      ("lot_size", VFloat (1 # 4)) ].

(** A request that names the property and nothing else. *)
Definition bare_request : pydict :=
  list_to_map [ ("property_address", VStr "9 Nowhere Lane") ].

Definition sample_comparables_draws : comparables_draws :=
  {| price_1 := 10000; sqft_1 := -120; days_1 := 30;
     price_2 := -15000; sqft_2 := 250; beds_2 := 1; days_2 := 12;
     price_3 := 20000; sqft_3 := 0; days_3 := 64 |}.

Definition sample_market_draws : market_draws :=
  {| market_direction := RISING;
     price_change_6_months := 31 # 10;
     average_days_on_market := 40;
     inventory_level := LOW;
     buyer_demand := HIGH;
     school_rating := 9;
     crime_rate := LOW;
     walkability_score := 71;
     transportation_access := GOOD |}.

Definition sample_draws : draws :=
  {| comparables_of := sample_comparables_draws;
     market_of := sample_market_draws |}.

(** A language model that answers every call. *)
Definition llm_answers : llm_oracle :=
  {| llm_data_collection := Ok tt;
     llm_comparables := Ok tt;
     llm_market_analysis := Ok tt;
     llm_final_valuation := Ok tt;
     llm_a2a_communication := Ok tt |}.

(** The record of an A2A request and of a standalone run. *)
Definition sample_a2a_state : pydict :=
  initial_state sample_request (VStr "req-0001") (VStr "MortgageApproval").
Definition sample_standalone_state : pydict :=
  initial_state sample_request VNone VNone.

(* ===================================================================== *)
(** * The market adjustment, as the specification tabulates it            *)
(* ===================================================================== *)

Definition trend_table (x : direction) : Z :=
  match x with RISING => 2 | DECLINING => -2 | STABLE => 0 end.
Definition demand_table (x : level) : Z :=
  match x with HIGH => 3 | LOW => -3 | MODERATE => 0 end.
Definition inventory_table (x : level) : Z :=
  match x with HIGH => -2 | LOW => 2 | MODERATE => 0 end.
Definition neighborhood_table (rating : Z) : Z :=
  if (9 <=? rating)%Z then 5 else if (7 <=? rating)%Z then 2 else -2.

Definition factor_sum (m : market_draws) : Z :=
  (trend_table (market_direction m) + demand_table (buyer_demand m)
   + inventory_table (inventory_level m)
   + neighborhood_table (school_rating m))%Z.

Definition clamp (lo hi x : Z) : Z :=
  if (x <? lo)%Z then lo else if (hi <? x)%Z then hi else x.

(* ===================================================================== *)
(** * The vocabulary of the statements                                    *)
(* ===================================================================== *)

(** ** FinalValuation: flags, tiers and the written results *)

(** The three data-quality flags, counted as the specification lists them:
    square footage missing (the stage's own test, [not state.get(...)]),
    fewer than three comparables, an adjustment beyond ten percent. *)
Definition quality_flags (state : pydict) (n_comparables : Z) (adjustment : Q)
    : nat :=
  ((if Py.truthy (Py.get state "square_footage") then 0 else 1)
   + (if (n_comparables <? 3)%Z then 1 else 0)
   + (if Qle_bool (Qabs adjustment) (inject_Z 10) then 0 else 1))%nat.

(** The three-tier table: level, score, half-width of the range. *)
Definition tier_level (flags : nat) : string :=
  match flags with O => "HIGH" | S O => "MEDIUM" | _ => "LOW" end.
Definition tier_score (flags : nat) : Z :=
  match flags with O => 85 | S O => 70 | _ => 55 end.
Definition tier_half_width (flags : nat) : Q :=
  match flags with O => 5 # 100 | S O => 10 # 100 | _ => 15 # 100 end.

(** What FinalValuation leaves in the record [state'] for base value [b],
    adjustment [p] and [n] comparables. *)
Definition valued (state state' : pydict) (b p : Py.num) (n : Z) : Prop :=
  let flags := quality_flags state n (Py.to_Q p) in
  ∃ est lo hi : Q,
    state' !! "estimated_value" = Some (VFloat est)
    ∧ (est == Py.to_Q b * (1 + Py.to_Q p / inject_Z 100))%Q
    ∧ state' !! "confidence_level" = Some (VStr (tier_level flags))
    ∧ nested state' "response_data" "confidence_level"
      = Some (VStr (tier_level flags))
    ∧ nested state' "response_data" "confidence_score"
      = Some (VInt (tier_score flags))
    ∧ nested state' "final_assessment" "confidence_score"
      = Some (VInt (tier_score flags))
    ∧ nested state' "valuation_range" "min_value" = Some (VFloat lo)
    ∧ nested state' "valuation_range" "max_value" = Some (VFloat hi)
    ∧ (est - lo == tier_half_width flags * est)%Q
    ∧ (hi - est == tier_half_width flags * est)%Q.

(** A record FinalValuation can work on: the two summaries hold numbers,
    the comparables have a length, the address is there. *)
Definition enters_final_valuation (state : pydict) (b p : Py.num) (n : Z)
    : Prop :=
  (∃ bv, nested state "comparable_analysis" "average_sale_price" = Some bv
         ∧ Py.as_num bv = Some b)
  ∧ (∃ pv, nested state "market_adjustment" "total_adjustment_percent" = Some pv
           ∧ Py.as_num pv = Some p)
  ∧ (∃ cv, state !! "comparable_properties" = Some cv ∧ Py.len cv = Ok n)
  ∧ is_Some (state !! "property_address").

(** The record the sample A2A request has reached when FinalValuation
    starts, under the sample draws. *)
Definition sample_valuation_input : pydict :=
  match
    (s1 ← mock_property_data_collection_node sample_a2a_state;
     s2 ← mock_comparable_properties_node s1 sample_comparables_draws;
     mock_market_analysis_node s2 sample_market_draws)
  with
  | Ok s => s
  | Raise _ => ∅
  end.

(** ** DataIntake: the completeness table *)

(** [x] is the one entry the stage added to log [k]. *)
Definition appended (k : string) (x : string) (state state' : pydict) : Prop :=
  ∃ l, log k state = VList l ∧ state' !! k = Some (VList (l ++ [VStr x])).

(** The outcome of DataIntake when [fields] are the attributes it counts as
    missing. *)
Definition intake_outcome (fields : list string) (state state' : pydict)
    : Prop :=
  let missing := length fields in
  state' !! "current_step" = Some (VStr "property_data_collected")
  ∧ (∀ k, k ≠ "current_step" → k ≠ "warnings" → k ≠ "errors" →
          state' !! k = state !! k)
  ∧ data_quality_score state = Z.max 0 (100 - 20 * Z.of_nat missing)
  ∧ (missing = 0%nat →
       data_completeness state = "COMPLETE"
       ∧ data_quality_score state = 100%Z
       ∧ state' !! "warnings" = state !! "warnings"
       ∧ state' !! "errors" = state !! "errors")
  ∧ ((1 ≤ missing ≤ 2)%nat →
       data_completeness state = "PARTIAL"
       ∧ appended "warnings"
           ("Some property data missing: " +:+ Py.repr_str_list fields)
           state state'
       ∧ state' !! "errors" = state !! "errors")
  ∧ ((3 ≤ missing)%nat →
       data_completeness state = "INCOMPLETE"
       ∧ appended "errors"
           ("Insufficient property data: missing " +:+ Py.repr_str_list fields)
           state state'
       ∧ state' !! "warnings" = state !! "warnings")
  ∧ (missing = 4%nat → data_quality_score state = 20%Z).

(** The required attributes that are absent from the record: no key, or
    [None]. *)
Definition absent_fields (state : pydict) : list string :=
  List.filter
    (λ field, match Py.get state field with VNone => true | _ => false end)
    required_fields.

(** Both logs are lists, as every record the entry points build has them. *)
Definition has_logs (state : pydict) : Prop :=
  (∃ l, state !! "errors" = Some (VList l))
  ∧ (∃ l, state !! "warnings" = Some (VList l)).

(** Each log is a list or is not there yet. *)
Definition has_or_lacks_logs (state : pydict) : Prop :=
  (∃ l, log "errors" state = VList l) ∧ (∃ l, log "warnings" state = VList l).

(** The sample record with a square footage of 0. *)
Definition zero_square_footage_state : pydict :=
  <["square_footage" := VInt 0]> sample_a2a_state.

(** ** Envelope validation *)

(** [data] contains the field [k]: as a key when it is a dict (the payload
    the pipeline builds), as [in] decides for the other containers. *)
Definition holds_field (data : value) (k : string) : Prop :=
  match data with
  | VDict d => is_Some (d !! k)
  | VList l => VStr k ∈ l
  | VStr s => Py.is_substring k s = true
  | _ => False
  end.

(** The payload of an envelope, as the validator reads it: [{}] when the
    envelope has no [data]. *)
Definition payload (response : pydict) : value :=
  Py.get_or response "data" (VDict ∅).

(** The validation contract of the specification. *)
Definition valid_envelope (response : pydict) : Prop :=
  (is_Some (response !! "status") ∧ is_Some (response !! "request_id")
   ∧ is_Some (response !! "agent"))
  ∧ (response !! "status" = Some (VStr "SUCCESS") →
     holds_field (payload response) "estimated_value"
     ∧ holds_field (payload response) "confidence_level"
     ∧ holds_field (payload response) "valuation_range").

(** The smallest ERROR envelope. *)
Definition minimal_error_envelope (request_id agent : value) : pydict :=
  list_to_map
    [ ("status", VStr "ERROR"); ("request_id", request_id); ("agent", agent) ].

(** A SUCCESS envelope whose payload has every field but the range. *)
Definition rangeless_success_envelope : pydict :=
  list_to_map
    [ ("status", VStr "SUCCESS");
      ("request_id", VStr "req-0001");
      ("agent", VStr "PropertyValuation (Mock)");
      ("data", VDict (list_to_map
         [ ("estimated_value", VFloat (473800 # 1));
           ("confidence_level", VStr "HIGH");
           ("confidence_score", VInt 85) ])) ].

(** ** Request processing *)

(** The client as [A2APropertyValuationClient()] builds it by default: the
    linear offline workflow under the name it reports. *)
Definition mock_client (d : draws) (str_of_exception : exn → string)
    (request_id : string) (request_data : pydict) (requesting_agent : string)
    : result pydict :=
  process_valuation_request
    (λ state, outcome (invoke create_mock_property_valuation_workflow d state))
    "PropertyValuation (Mock)" str_of_exception
    request_id request_data requesting_agent.

(** The envelope of a completed run and of a failed one, field by field. *)
Definition success_envelope (request_id agent_name : string) (result : pydict)
    (response : pydict) : Prop :=
  response !! "status" = Some (VStr "SUCCESS")
  ∧ response !! "request_id" = Some (VStr request_id)
  ∧ response !! "agent" = Some (VStr agent_name)
  ∧ response !! "data" = Some (Py.get_or result "response_data" (VDict ∅))
  ∧ response !! "errors" = Some (log "errors" result)
  ∧ response !! "warnings" = Some (log "warnings" result)
  ∧ response !! "error_message" = None.

Definition error_envelope (request_id agent_name message : string)
    (response : pydict) : Prop :=
  response !! "status" = Some (VStr "ERROR")
  ∧ response !! "request_id" = Some (VStr request_id)
  ∧ response !! "agent" = Some (VStr agent_name)
  ∧ response !! "error_message" = Some (VStr message)
  ∧ response !! "data" = Some VNone
  ∧ response !! "errors" = None
  ∧ response !! "warnings" = None.

(** ** ResponseDispatch *)

(** The record after a dispatch that logged: one more warning, the step
    marker, nothing else. *)
Definition dispatched (opening : string) (state state' : pydict) : Prop :=
  appended "warnings" (dispatch_message opening state) state state'
  ∧ state' !! "current_step" = Some (VStr "a2a_response_sent")
  ∧ ∀ k, k ≠ "current_step" → k ≠ "warnings" → state' !! k = state !! k.

(** The record after a dispatch that only marks it ready for local use. *)
Definition ready_for_use (state : pydict) : pydict :=
  <["current_step" := VStr "valuation_ready_for_use"]> state.

(** A record whose payload the canned summary of the offline stage can
    print: an address, and a payload dict with a numeric estimate, a level,
    a score and notes. *)
Definition summarisable (state : pydict) : Prop :=
  is_Some (state !! "property_address")
  ∧ ∃ d est, state !! "response_data" = Some (VDict d)
       ∧ d !! "estimated_value" = Some est
       ∧ is_Some (Py.as_num est)
       ∧ is_Some (d !! "confidence_level")
       ∧ is_Some (d !! "confidence_score")
       ∧ is_Some (d !! "appraiser_notes").

(** The record of an A2A request that names no attribute, after DataIntake:
    the request is there, the payload is not. *)
Definition bare_a2a_state : pydict :=
  match mock_property_data_collection_node
          (initial_state bare_request (VStr "req-0002") (VStr "MortgageApproval"))
  with
  | Ok s => s
  | Raise _ => ∅
  end.

(** The sample record when ResponseDispatch starts. *)
Definition sample_dispatch_input : pydict :=
  match mock_final_valuation_node sample_valuation_input with
  | Ok s => s
  | Raise _ => ∅
  end.

(** ** What each stage writes *)

(** [state'] differs from [state] on the keys of [keys] at most. *)
Definition writes_only (keys : list string) (state state' : pydict) : Prop :=
  ∀ k, k ∉ keys → state' !! k = state !! k.

Definition intake_keys : list string := ["current_step"; "errors"; "warnings"].
Definition comparables_keys : list string :=
  ["comparable_properties"; "comparable_analysis"; "current_step"].
Definition market_keys : list string :=
  ["market_trends"; "neighborhood_data"; "market_adjustment"; "current_step"].
Definition valuation_keys : list string :=
  ["estimated_value"; "confidence_level"; "valuation_range";
   "final_assessment"; "response_data"; "current_step"].
Definition dispatch_keys : list string := ["current_step"; "warnings"].

(** The keys that any of the five stages assigns. *)
Definition stage_keys : list string :=
  intake_keys ++ comparables_keys ++ market_keys ++ valuation_keys
  ++ dispatch_keys.

(** ** Conditional routing *)

(** The conditionally routed run that leaves DataIntake with an error:
    DataIntake, then ResponseDispatch on the record DataIntake returned. *)
Definition short_circuit (s1 : pydict) : run :=
  match mock_a2a_communication_node s1 with
  | Ok s2 =>
      {| history := [(data_collection, s1); (a2a_communication, s2)];
         outcome := Ok s2 |}
  | Raise e =>
      {| history := [(data_collection, s1)]; outcome := Raise e |}
  end.

(** ** The degraded envelope *)

(** The five stages of [nodes.py] by node name, as [mock_nodes] gives the
    offline ones. *)
Definition llm_nodes (llm : llm_oracle) (n : node_name) (d : draws)
    (state : pydict) : result pydict :=
  match n with
  | data_collection => property_data_collection_node llm state
  | comparables => comparable_properties_node llm state (comparables_of d)
  | market_analysis => market_analysis_node llm state (market_of d)
  | final_valuation => final_valuation_node llm state
  | a2a_communication => a2a_communication_node llm state
  end.

(** [state'] is what some stage, offline or not, returned on [state]. *)
Definition stage_returned (state state' : pydict) : Prop :=
  ∃ llm n d, mock_nodes n d state = Ok state'
             ∨ llm_nodes llm n d state = Ok state'.

(** The sample record with an estimate of zero. *)
Definition zero_estimate_state : pydict :=
  <["estimated_value" := VFloat 0]> sample_a2a_state.

(** ** The result fields: all or nothing *)

(** No result yet: estimate, level, range and payload are all null. *)
Definition results_unset (state : pydict) : Prop :=
  Py.get state "estimated_value" = VNone
  ∧ Py.get state "confidence_level" = VNone
  ∧ Py.get state "valuation_range" = VNone
  ∧ Py.get state "response_data" = VNone.

(** A result: estimate, level and range are set, the range contains the
    estimate, and the score is set where the code keeps it, in the payload
    and in the final assessment. *)
Definition results_set (state : pydict) : Prop :=
  ∃ (est lo hi : Q) (level : string) (score : Z),
    state !! "estimated_value" = Some (VFloat est)
    ∧ state !! "confidence_level" = Some (VStr level)
    ∧ nested state "valuation_range" "min_value" = Some (VFloat lo)
    ∧ nested state "valuation_range" "max_value" = Some (VFloat hi)
    ∧ (lo <= est)%Q ∧ (est <= hi)%Q
    ∧ nested state "response_data" "confidence_score" = Some (VInt score)
    ∧ nested state "final_assessment" "confidence_score" = Some (VInt score).

Definition results_consistent (state : pydict) : Prop :=
  results_unset state ∨ results_set state.

(** The invariant of the pipeline: consistent results, a non-negative
    average sale price once there is one, an adjustment within the clamp
    once there is one. *)
Definition record_ok (state : pydict) : Prop :=
  results_consistent state
  ∧ (∀ v, nested state "comparable_analysis" "average_sale_price" = Some v →
          ∃ q, v = VFloat q ∧ (0 <= q)%Q)
  ∧ (∀ v, nested state "market_adjustment" "total_adjustment_percent" = Some v →
          ∃ t, v = VInt t ∧ (-20 ≤ t ≤ 20)%Z).

(** The keys [record_ok] reads. *)
Definition result_keys : list string :=
  ["estimated_value"; "confidence_level"; "valuation_range"; "response_data";
   "final_assessment"; "comparable_analysis"; "market_adjustment"].

(** C1 as stated reads the score from the record itself. *)
Definition results_all_set_as_stated (state : pydict) : Prop :=
  Py.get state "estimated_value" ≠ VNone →
  Py.get state "confidence_level" ≠ VNone
  ∧ Py.get state "confidence_score" ≠ VNone
  ∧ Py.get state "valuation_range" ≠ VNone.

(** The record the sample A2A request ends with on the linear workflow. *)
Definition sample_final_state : pydict :=
  match outcome (invoke create_mock_property_valuation_workflow sample_draws
                        sample_a2a_state) with
  | Ok s => s
  | Raise _ => ∅
  end.

(** ** Zero, null and absent attributes *)

(** [v + n] is defined: [v] is a number. *)
Definition addable (v : value) : Prop := is_Some (Py.as_num v).

(** The price per square foot that ComparablesAnalysis left in the record. *)
Definition price_per_square_foot (state : pydict) : option value :=
  nested state "comparable_analysis" "price_per_square_foot".

(** The record of an A2A request that gives every attribute but the square
    footage: the entry points bind the key to [None]. *)
Definition unknown_square_footage_state : pydict :=
  initial_state (delete "square_footage" sample_request)
                (VStr "req-0003") (VStr "MortgageApproval").

(* ===================================================================== *)
(** * error_handling.py: node faults, transport faults, the environment   *)
(* ===================================================================== *)

(** What a node can raise, as [handle_node_error] tells them apart:
    the module's own [PropertyValuationError] ([error_handling.py] 19-26;
    its [details] are never read) or any other exception. *)
Inductive raised : Type :=
| PropertyValuationError (message error_code : string)
| OtherException (e : exn).

(** [str(error)]: a [PropertyValuationError] passes its message to
    [Exception.__init__]; the text of the others is the interpreter's. *)
Definition str_of_raised (str_of_exception : exn → string) (error : raised)
    : string :=
  match error with
  | PropertyValuationError message _ => message
  | OtherException e => str_of_exception e
  end.

(** [x in l] for a list of strings. *)
Definition str_in (x : string) (l : list string) : bool :=
  existsb (String.eqb x) l.

Definition non_recoverable_codes : list string :=
  ["INVALID_PROPERTY"; "API_FAILURE"; "CONFIGURATION_ERROR"].

(** [error_handling.py] 28-48 (the call to the logger left out). *)
Definition handle_node_error (str_of_exception : exn → string)
    (state : pydict) (node_name : string) (error : raised) : result pydict :=
  let error_message :=
    "Error in " +:+ node_name +:+ ": " +:+ str_of_raised str_of_exception error in
  state ← append_to "errors" (VStr error_message) (ensure_list "errors" state);
  let state := <["current_step" := VStr (node_name +:+ "_failed")]> state in
  match error with
  | PropertyValuationError _ error_code =>
      if str_in error_code non_recoverable_codes
      then Ok (<["current_step" := VStr "workflow_failed"]> state)
      else Ok state
  | OtherException _ => Ok state
  end.

(** [str.lower()] on the letters A-Z; the strings of the model are byte
    strings, so this is Python's [lower] on ASCII text. *)
Definition lower_ascii (c : Ascii.ascii) : Ascii.ascii :=
  let n := Ascii.N_of_ascii c in
  if (65 <=? n)%N && (n <=? 90)%N then Ascii.ascii_of_N (n + 32) else c.

Fixpoint lower (s : string) : string :=
  match s with
  | EmptyString => EmptyString
  | String c s' => String (lower_ascii c) (lower s')
  end.

(** The [if]/[elif] chain of [handle_a2a_error] on [str(error).lower()]. *)
Definition a2a_error_code (text : string) : string :=
  if Py.is_substring "timeout" text then "A2A_TIMEOUT"
  else if Py.is_substring "authentication" text
          || Py.is_substring "credentials" text then "A2A_AUTH_ERROR"
  else if Py.is_substring "network" text
          || Py.is_substring "connection" text then "A2A_NETWORK_ERROR"
  else "A2A_COMMUNICATION_ERROR".

(** [error_handling.py] 50-73 (the call to the logger left out). *)
Definition handle_a2a_error (str_of_exception : exn → string) (error : exn)
    (request_id : value) : pydict :=
  list_to_map
    [ ("status", VStr "ERROR");
      ("error_code", VStr (a2a_error_code (lower (str_of_exception error))));
      ("error_message", VStr (str_of_exception error));
      ("request_id", request_id);
      ("agent", VStr "PropertyValuation");
      ("data", VNone) ].

(** [not os.getenv(var)] on an environment: unset or empty. *)
Definition unset (env : gmap string string) (var : string) : bool :=
  match env !! var with
  | None => true
  | Some s => String.eqb s ""
  end.

Definition required_vars : list string := ["GOOGLE_API_KEY"].

(** [optional_vars], in insertion order. *)
Definition optional_vars : list (string * string) :=
  [ ("LANGCHAIN_TRACING_V2", "Tracing not enabled");
    ("LANGCHAIN_API_KEY", "LangSmith integration not available") ].

Definition environment_errors (env : gmap string string) : list string :=
  map (λ var, "Missing required environment variable: " +:+ var)
      (List.filter (unset env) required_vars).

Definition environment_warnings (env : gmap string string) : list string :=
  map snd (List.filter (λ entry, unset env (fst entry)) optional_vars).

(** [error_handling.py] 75-103. *)
Definition validate_environment (env : gmap string string) : pydict :=
  list_to_map
    [ ("valid",
       VBool (match List.filter (unset env) required_vars with
              | [] => true
              | _ => false
              end));
      ("errors", VList (map VStr (environment_errors env)));
      ("warnings", VList (map VStr (environment_warnings env))) ].

(* ===================================================================== *)
(** * a2a_client.py: the request and the mortgage view                    *)
(* ===================================================================== *)

(** [a2a_client.py] 144-168. *)
Definition create_property_valuation_request (property_info : pydict) : pydict :=
  list_to_map
    [ ("request_type", VStr "PROPERTY_VALUATION");
      ("property_address", Py.get property_info "property_address");
      ("property_type",
       Py.get_or property_info "property_type" (VStr "single_family"));
      ("square_footage", Py.get property_info "square_footage");
      ("bedrooms", Py.get property_info "bedrooms");
      ("bathrooms", Py.get property_info "bathrooms");
      ("year_built", Py.get property_info "year_built");
      ("lot_size", Py.get property_info "lot_size");
      ("requesting_context", VStr "MORTGAGE_APPROVAL");
      ("urgency", VStr "STANDARD");
      ("required_confidence", VStr "MEDIUM") ].

(** [v > n] for an integer [n]: defined on numbers only. *)
Definition greater (v : value) (n : Z) : result bool :=
  a ← Py.to_num v; Ok (Py.gt a (Py.NInt n)).

(** [a2a_client.py] 110-139.  The argument is whatever the caller passes as
    [valuation_data]: only a dict has [get]. *)
Definition format_response_for_mortgage_agent (valuation_data : value)
    : result pydict :=
  match valuation_data with
  | VDict data =>
      market_stable ← greater (Py.get_or data "confidence_score" (VInt 0)) 70;
      Ok (list_to_map
        [ ("property_valuation", VDict (list_to_map
             [ ("estimated_value", Py.get data "estimated_value");
               ("confidence_level", Py.get data "confidence_level");
               ("confidence_score", Py.get data "confidence_score");
               ("valuation_range", Py.get_or data "valuation_range" (VDict ∅));
               ("appraisal_date", Py.get data "valuation_date");
               ("appraiser_notes", Py.get data "appraiser_notes") ]));
          ("loan_to_value_calculation", VDict (list_to_map
             [ ("estimated_value", Py.get data "estimated_value");
               ("ltv_ready", VBool true) ]));
          ("valuation_flags", VDict (list_to_map
             [ ("high_confidence",
                VBool (Py.eq_str (Py.get data "confidence_level") "HIGH"));
               ("market_stable", VBool market_stable);
               ("comparable_data_sufficient", VBool true) ])) ])
  | _ => Raise AttributeError
  end.

(** What [example_mortgage_to_property_valuation] does with a response
    ([a2a_client.py] 214-224): validate, then format the data and print the
    estimate and the level ([Some] of the formatted view), or report the
    failure ([None]). *)
Definition consume_response (response : pydict) : result (option pydict) :=
  validate_a2a_response response ≫= λ valid : bool,
  if valid then
    payload ← Py.item response "data";
    formatted_response ← format_response_for_mortgage_agent payload;
    estimate ← Py.subscript payload "estimated_value";
    _ ← Py.check_format_f estimate;
    _ ← Py.subscript payload "confidence_level";
    Ok (Some formatted_response)
  else Ok None.

(** The property the example asks about ([a2a_client.py] 197-205). *)
Definition example_property_info : pydict :=
  list_to_map
    [ ("property_address", VStr "123 Main St, Anytown, ST 12345");
      ("property_type", VStr "single_family");
      ("square_footage", VInt 2200);
      ("bedrooms", VInt 4);
      ("bathrooms", VFloat (5 # 2));
      ("year_built", VInt 2010);
      ("lot_size", VFloat (1 # 4)) ].

(** [a2a_client.py] 193-224, with the default client. *)
Definition example_mortgage_to_property_valuation (d : draws)
    (str_of_exception : exn → string) (request_id : string)
    : result (option pydict) :=
  let valuation_request := create_property_valuation_request example_property_info in
  response ← mock_client d str_of_exception request_id valuation_request
                         "MortgageApproval";
  consume_response response.

(* ===================================================================== *)
(** * main.py: the standalone run                                         *)
(* ===================================================================== *)

(** [', '.join(v)]: an iterable of strings. *)
Definition check_join (v : value) : result unit :=
  match v with
  | VStr _ | VDict _ => Ok tt
  | VList l =>
      if forallb (λ x, match x with VStr _ => true | _ => false end) l
      then Ok tt else Raise TypeError
  | _ => Raise TypeError
  end.

(** The prints of [run_standalone_valuation] ([main.py] 62-76): their text
    goes to the terminal, their subscripts and formats can raise. *)
Definition print_results (final : pydict) : result unit :=
  _ ← reads final "property_address";
  estimate ← Py.item final "estimated_value";
  _ ← Py.check_format_f estimate;
  _ ← reads final "confidence_level";
  range ← Py.item final "valuation_range";
  low ← Py.subscript range "min_value";
  _ ← Py.check_format_f low;
  high ← Py.subscript range "max_value";
  _ ← Py.check_format_f high;
  _ ← (if Py.truthy (Py.get final "warnings")
       then Py.item final "warnings" ≫= check_join else Ok tt);
  _ ← (if Py.truthy (Py.get final "errors")
       then Py.item final "errors" ≫= check_join else Ok tt);
  reads final "current_step".

(** [main.py] 13-82; [workflow_invoke] is the invocation of the workflow
    that [create_property_valuation_workflow()] returned. *)
Definition run_standalone_valuation (workflow_invoke : pydict → result pydict)
    (str_of_exception : exn → string) (property_data : pydict) : result pydict :=
  let initial_state := initial_state property_data VNone VNone in
  try_except
    (result ← workflow_invoke initial_state;
     _ ← print_results result;
     Ok result)
    (λ e, Ok (list_to_map [ ("error", VStr (str_of_exception e)) ])).

(* ===================================================================== *)
(** * The vocabulary of the further statements                            *)
(* ===================================================================== *)

(** The run of the linear workflow written out: each stage on the record
    of the one before, stopping at the first that raises. *)
Definition linear_run (d : draws) (state : pydict) : run :=
  match mock_property_data_collection_node state with
  | Raise e => {| history := []; outcome := Raise e |}
  | Ok s1 =>
  match mock_comparable_properties_node s1 (comparables_of d) with
  | Raise e => {| history := [(data_collection, s1)]; outcome := Raise e |}
  | Ok s2 =>
  match mock_market_analysis_node s2 (market_of d) with
  | Raise e =>
      {| history := [(data_collection, s1); (comparables, s2)];
         outcome := Raise e |}
  | Ok s3 =>
  match mock_final_valuation_node s3 with
  | Raise e =>
      {| history := [(data_collection, s1); (comparables, s2);
                     (market_analysis, s3)];
         outcome := Raise e |}
  | Ok s4 =>
  match mock_a2a_communication_node s4 with
  | Raise e =>
      {| history := [(data_collection, s1); (comparables, s2);
                     (market_analysis, s3); (final_valuation, s4)];
         outcome := Raise e |}
  | Ok s5 =>
      {| history := [(data_collection, s1); (comparables, s2);
                     (market_analysis, s3); (final_valuation, s4);
                     (a2a_communication, s5)];
         outcome := Ok s5 |}
  end end end end end.

(** The five stages in pipeline order. *)
Definition pipeline_order : list node_name :=
  [data_collection; comparables; market_analysis; final_valuation;
   a2a_communication].

(** The keys the caller sets and no stage assigns: the property's
    attributes and the A2A correlation. *)
Definition input_keys : list string :=
  ["property_address"; "property_type"; "square_footage"; "bedrooms";
   "bathrooms"; "year_built"; "lot_size"; "request_id"; "requesting_agent"].

(** Log [k] of [state'] is log [k] of [state] with at most [n] entries
    added at the end. *)
Definition grows_by (n : nat) (k : string) (state state' : pydict) : Prop :=
  ∀ l, log k state = VList l →
       ∃ added, log k state' = VList (l ++ added) ∧ (length added ≤ n)%nat.

(** Log [k] of [state'] extends log [k] of [state]. *)
Definition extends (k : string) (state state' : pydict) : Prop :=
  ∃ n, grows_by n k state state'.

(* ===================================================================== *)
(** * Basic facts                                                         *)
(* ===================================================================== *)

Lemma bind_Ok {A B} (m : result A) (f : A → result B) (b : B) :
  m ≫= f = Ok b → ∃ a, m = Ok a ∧ f a = Ok b.
Proof. destruct m as [a|e]; [eauto | discriminate]. Qed.

Lemma reads_present (state : pydict) (k : string) :
  is_Some (state !! k) → reads state k = Ok tt.
Proof. intros [v Hv]. unfold reads, Py.item. by rewrite Hv. Qed.

Lemma trend_adjustment_table (m : market_draws) :
  trend_adjustment (market_trends m) = trend_table (market_direction m).
Proof. destruct m as [dir ? ? ? ? ? ? ? ?]; destruct dir; reflexivity. Qed.

Lemma demand_adjustment_table (m : market_draws) :
  demand_adjustment (market_trends m) = demand_table (buyer_demand m).
Proof. destruct m as [? ? ? ? dem ? ? ? ?]; destruct dem; reflexivity. Qed.

Lemma inventory_adjustment_table (m : market_draws) :
  inventory_adjustment (market_trends m) = inventory_table (inventory_level m).
Proof. destruct m as [? ? ? inv ? ? ? ? ?]; destruct inv; reflexivity. Qed.

Lemma neighborhood_adjustment_table (m : market_draws) :
  neighborhood_adjustment (neighborhood_data m)
  = neighborhood_table (school_rating m).
Proof. destruct m; reflexivity. Qed.

Lemma total_market_adjustment_table (m : market_draws) :
  total_market_adjustment m = factor_sum m.
Proof.
  unfold total_market_adjustment, factor_sum, market_adjustment_factors.
  cbn [map snd fold_left].
  rewrite trend_adjustment_table, demand_adjustment_table,
    inventory_adjustment_table, neighborhood_adjustment_table.
  lia.
Qed.

Lemma market_stage_total (enrich : pydict → result unit) (state state' : pydict)
    (m : market_draws) :
  market_stage enrich state m = Ok state' →
  nested state' "market_adjustment" "total_adjustment_percent"
  = Some (VInt (clamp (-20) 20 (factor_sum m))).
Proof.
  unfold market_stage. intros H.
  apply bind_Ok in H as (u & _ & H). injection H as <-.
  unfold nested. rewrite lookup_insert_ne by done. rewrite lookup_insert_eq.
  unfold market_adjustment.
  change (Some (VInt (Z.max (-20) (Z.min 20 (total_market_adjustment m))))
          = Some (VInt (clamp (-20) 20 (factor_sum m)))).
  rewrite total_market_adjustment_table. unfold clamp.
  do 2 f_equal. repeat case_match; lia.
Qed.

(** ** C2 *)

(** C2. Whatever direction, demand, inventory level and school rating are
    drawn, the [total_adjustment_percent] that MarketAnalysis stores is the
    sum of the four tabulated per-factor adjustments clamped to [-20, 20],
    and so lies in that interval.  The offline stage always stores it; the
    stage of [nodes.py] stores the same number whenever its model call
    returns, and it returns whenever the record has an address and the model
    answers. *)
Theorem market_adjustment_within_bounds (llm : llm_oracle) (state : pydict)
    (m : market_draws) :
  let stored := clamp (-20) 20 (factor_sum m) in
  (-20 ≤ stored ≤ 20)%Z
  ∧ (∃ state', mock_market_analysis_node state m = Ok state'
       ∧ nested state' "market_adjustment" "total_adjustment_percent"
         = Some (VInt stored))
  ∧ (∀ state', market_analysis_node llm state m = Ok state' →
       nested state' "market_adjustment" "total_adjustment_percent"
       = Some (VInt stored))
  ∧ (is_Some (state !! "property_address") →
     llm_market_analysis llm = Ok tt →
     ∃ state', market_analysis_node llm state m = Ok state').
Proof.
  intros stored. repeat split.
  - unfold stored, clamp. repeat case_match; lia.
  - unfold stored, clamp. repeat case_match; lia.
  - eexists. split; [reflexivity|].
    apply (market_stage_total (λ _, Ok tt) state). reflexivity.
  - intros state' H. eapply market_stage_total. exact H.
  - intros Haddr Hllm. unfold market_analysis_node, market_stage.
    rewrite (reads_present _ _ Haddr). simpl. rewrite Hllm. simpl. eauto.
Qed.

Lemma market_adjustment_within_bounds_witness :
  is_Some (sample_a2a_state !! "property_address")
  ∧ llm_market_analysis llm_answers = Ok tt
  ∧ ∃ state', market_analysis_node llm_answers sample_a2a_state
                sample_market_draws = Ok state'
      ∧ nested state' "market_adjustment" "total_adjustment_percent"
        = Some (VInt 12).
Proof.
  assert (Ha : is_Some (sample_a2a_state !! "property_address"))
    by (vm_compute; eauto).
  split; [exact Ha|]. split; [reflexivity|].
  destruct (market_adjustment_within_bounds llm_answers sample_a2a_state
              sample_market_draws) as (_ & _ & Hsame & Hruns).
  destruct (Hruns Ha eq_refl) as [state' Hrun].
  exists state'. split; [exact Hrun|]. exact (Hsame state' Hrun).
Defined.

(* ===================================================================== *)
(** * FinalValuation: flags, tiers and the written results                *)
(* ===================================================================== *)

Lemma nested_Some (state : pydict) (k1 k2 : string) (v : value) :
  nested state k1 k2 = Some v →
  ∃ inner, state !! k1 = Some (VDict inner) ∧ inner !! k2 = Some v.
Proof.
  unfold nested. destruct (state !! k1) as [[]|]; try discriminate. eauto.
Qed.

Lemma to_Q_abs (p : Py.num) : Py.to_Q (Py.abs p) = Qabs (Py.to_Q p).
Proof. destruct p; reflexivity. Qed.

Lemma length_quality_factors (state : pydict) (n : Z) (p : Py.num) :
  length (quality_factors state n p) = quality_flags state n (Py.to_Q p).
Proof.
  unfold quality_factors, quality_flags, Py.gt. rewrite to_Q_abs.
  change (Py.to_Q (Py.NInt 10)) with (inject_Z 10).
  rewrite !length_app.
  destruct (Py.truthy _), (n <? 3)%Z, (Qle_bool _ _); reflexivity.
Qed.

Lemma confidence_of_tier (factors : list string) :
  confidence_of factors
  = (tier_level (length factors), tier_score (length factors)).
Proof. destruct factors as [|? [|? ?]]; reflexivity. Qed.

Lemma range_factor_of_tier (flags : nat) :
  range_factor_of (tier_level flags) = tier_half_width flags.
Proof. destruct flags as [|[|?]]; reflexivity. Qed.

Lemma truediv_100 (p : Py.num) :
  Py.truediv p (Py.NInt 100)
  = Ok (Py.NFloat (Py.fdiv (Py.to_Q p) (inject_Z 100))).
Proof. reflexivity. Qed.

Lemma valuation_of_enters (state : pydict) (b p : Py.num) (n : Z) :
  enters_final_valuation state b p n →
  let flags := quality_flags state n (Py.to_Q p) in
  let adjusted :=
    Py.fmul (Py.to_Q b) (Py.fadd 1 (Py.fdiv (Py.to_Q p) (inject_Z 100))) in
  ∃ v, valuation_of state = Ok v
       ∧ market_adjusted_value v = adjusted
       ∧ confidence_level v = tier_level flags
       ∧ confidence_score v = tier_score flags
       ∧ min_value v = Py.fmul adjusted (Py.fsub 1 (tier_half_width flags))
       ∧ max_value v = Py.fmul adjusted (Py.fadd 1 (tier_half_width flags)).
Proof.
  intros ((bv & Hb & Hbn) & (pv & Hp & Hpn) & (cv & Hc & Hn) & _) flags adjusted.
  apply nested_Some in Hb as (ca & Hca & Hbv).
  apply nested_Some in Hp as (ma & Hma & Hpv).
  unfold valuation_of, Py.subscript, Py.item, Py.to_num.
  rewrite Hca. cbn [mbind result_bind]. rewrite Hbv. cbn [mbind result_bind].
  rewrite Hma. cbn [mbind result_bind]. rewrite Hpv. cbn [mbind result_bind].
  rewrite Hpn, Hbn. cbn [mbind result_bind].
  rewrite truediv_100. cbn [mbind result_bind].
  rewrite Hc. cbn [mbind result_bind]. rewrite Hn. cbn [mbind result_bind].
  eexists. split; [reflexivity|].
  cbn [market_adjusted_value confidence_level confidence_score min_value
       max_value Py.to_Q].
  rewrite confidence_of_tier, length_quality_factors.
  cbn [fst snd]. rewrite range_factor_of_tier. repeat split; reflexivity.
Qed.

Lemma final_valuation_stage_valued (enrich : pydict → result unit)
    (opening : string) (state : pydict) (b p : Py.num) (n : Z) :
  enters_final_valuation state b p n →
  enrich state = Ok tt →
  ∃ state', final_valuation_stage enrich opening state = Ok state'
            ∧ valued state state' b p n.
Proof.
  intros Henter Henrich.
  destruct (valuation_of_enters _ _ _ _ Henter)
    as (v & Hv & Hadj & Hl & Hs & Hlo & Hhi).
  destruct Henter as (_ & _ & _ & [addr Haddr]).
  unfold final_valuation_stage. rewrite Hv. cbn [mbind result_bind].
  rewrite Henrich. cbn [mbind result_bind].
  unfold Py.item. rewrite Haddr. cbn [mbind result_bind].
  eexists. split; [reflexivity|].
  exists (market_adjusted_value v), (min_value v), (max_value v).
  unfold nested.
  rewrite !lookup_insert_ne by done. rewrite !lookup_insert_eq.
  rewrite !(lookup_insert_ne _ "current_step") by done.
  repeat split.
  - rewrite Hadj. unfold Py.fmul, Py.fadd, Py.fdiv.
    rewrite !Qred_correct. reflexivity.
  - rewrite lookup_insert_ne by done. rewrite lookup_insert_ne by done.
    rewrite lookup_insert_ne by done. rewrite lookup_insert_eq.
    by rewrite Hl.
  - rewrite lookup_insert_eq. by rewrite <- Hl.
  - rewrite lookup_insert_eq. by rewrite <- Hs.
  - rewrite lookup_insert_ne by done. rewrite lookup_insert_eq.
    by rewrite <- Hs.
  - rewrite !lookup_insert_ne by done. rewrite lookup_insert_eq. reflexivity.
  - rewrite !lookup_insert_ne by done. rewrite lookup_insert_eq. reflexivity.
  - rewrite Hlo, <- Hadj. unfold Py.fmul, Py.fsub.
    rewrite !Qred_correct. ring.
  - rewrite Hhi, <- Hadj. unfold Py.fmul, Py.fadd.
    rewrite !Qred_correct. ring.
Qed.

Lemma final_valuation_stage_enters (enrich : pydict → result unit)
    (opening : string) (state state' : pydict) :
  final_valuation_stage enrich opening state = Ok state' →
  enrich state = Ok tt
  ∧ ∃ b p n, enters_final_valuation state b p n.
Proof.
  unfold final_valuation_stage. intros H.
  apply bind_Ok in H as (v & Hv & H).
  apply bind_Ok in H as ([] & Henrich & H).
  apply bind_Ok in H as (addr & Haddr & _).
  split; [exact Henrich|].
  unfold valuation_of in Hv.
  apply bind_Ok in Hv as (analysis & Ha & Hv).
  apply bind_Ok in Hv as (bv & Hbv & Hv).
  apply bind_Ok in Hv as (adjustment & Hm & Hv).
  apply bind_Ok in Hv as (pv & Hpv & Hv).
  apply bind_Ok in Hv as (p & Hp & Hv).
  apply bind_Ok in Hv as (ratio & _ & Hv).
  apply bind_Ok in Hv as (b & Hb & Hv).
  apply bind_Ok in Hv as (cv & Hc & Hv).
  apply bind_Ok in Hv as (n & Hn & _).
  exists b, p, n. unfold enters_final_valuation, nested.
  unfold Py.item in Ha, Hm, Hc, Haddr.
  destruct (state !! "comparable_analysis") as [a|]; [|discriminate].
  destruct (state !! "market_adjustment") as [m|]; [|discriminate].
  destruct (state !! "comparable_properties") as [c|]; [|discriminate].
  destruct (state !! "property_address") as [ad|]; [|discriminate].
  injection Ha as ->. injection Hm as ->. injection Hc as ->.
  unfold Py.subscript, Py.item in Hbv, Hpv.
  destruct analysis; try discriminate. destruct adjustment; try discriminate.
  unfold Py.to_num in Hp, Hb.
  repeat split.
  - exists bv. split.
    + destruct (d !! "average_sale_price"); [congruence | discriminate].
    + destruct (Py.as_num bv); [congruence | discriminate].
  - exists pv. split.
    + destruct (d0 !! "total_adjustment_percent"); [congruence | discriminate].
    + destruct (Py.as_num pv); [congruence | discriminate].
  - eauto.
  - eauto.
Qed.

(** ** C3 *)



(* ===================================================================== *)
(** * DataIntake: the completeness table                                  *)
(* ===================================================================== *)

Lemma append_to_ensured (k : string) (x : value) (state : pydict)
    (l : list value) :
  log k state = VList l →
  append_to k x (ensure_list k state) = Ok (<[k := VList (l ++ [x])]> state).
Proof.
  unfold log, Py.get_or, ensure_list, append_to. intros H.
  destruct (state !! k) as [v|] eqn:E; simpl in H.
  - subst v. by rewrite E.
  - injection H as <-. rewrite lookup_insert_eq. by rewrite insert_insert_eq.
Qed.

Lemma log_step (k : string) (state : pydict) (v : value) :
  k ≠ "current_step" →
  log k (<["current_step" := v]> state) = log k state.
Proof. intros H. unfold log, Py.get_or. by rewrite lookup_insert_ne. Qed.

Lemma has_logs_weaken (state : pydict) : has_logs state → has_or_lacks_logs state.
Proof.
  intros [[le He] [lw Hw]]. split; eexists; unfold log, Py.get_or.
  - by rewrite He.
  - by rewrite Hw.
Qed.

(** The writes shared by both intake stages, with the log created on
    demand; the offline stage coincides with it when the logs exist. *)
Lemma intake_writes_outcome (state : pydict) :
  has_or_lacks_logs state →
  let completeness := data_completeness state in
  let state' := <["current_step" := VStr "property_data_collected"]> state in
  ∃ state'',
    (if String.eqb completeness "INCOMPLETE" then
       append_to "errors" (VStr (insufficient_message state))
                 (ensure_list "errors" state')
     else if String.eqb completeness "PARTIAL" then
       append_to "warnings" (VStr (partial_message state))
                 (ensure_list "warnings" state')
     else Ok state') = Ok state''
    ∧ intake_outcome (missing_fields state) state state''.
Proof.
  intros [[le He] [lw Hw]] completeness state'.
  subst completeness. unfold intake_outcome, data_completeness, data_quality_score,
    insufficient_message, partial_message.
  assert (Hle : log "errors" state' = VList le)
    by (subst state'; by rewrite log_step).
  assert (Hlw : log "warnings" state' = VList lw)
    by (subst state'; by rewrite log_step).
  destruct (length (missing_fields state)) as [|[|[|n]]] eqn:Hn;
    cbn [Nat.eqb Nat.leb String.eqb Ascii.eqb Bool.eqb].
  - exists state'. split; [reflexivity|]. subst state'.
    repeat split; try lia.
    + apply lookup_insert_eq.
    + intros k ? ? ?. by rewrite lookup_insert_ne.
    + by rewrite lookup_insert_ne.
    + by rewrite lookup_insert_ne.
  - rewrite (append_to_ensured _ _ _ _ Hlw). eexists. split; [reflexivity|].
    subst state'. repeat split; try lia.
    + by rewrite lookup_insert_ne, lookup_insert_eq.
    + intros k ? ? ?. by rewrite !lookup_insert_ne.
    + exists lw. split; [done|]. apply lookup_insert_eq.
    + by rewrite !lookup_insert_ne.
  - rewrite (append_to_ensured _ _ _ _ Hlw). eexists. split; [reflexivity|].
    subst state'. repeat split; try lia.
    + by rewrite lookup_insert_ne, lookup_insert_eq.
    + intros k ? ? ?. by rewrite !lookup_insert_ne.
    + exists lw. split; [done|]. apply lookup_insert_eq.
    + by rewrite !lookup_insert_ne.
  - rewrite (append_to_ensured _ _ _ _ Hle). eexists. split; [reflexivity|].
    subst state'. repeat split; try lia.
    + by rewrite lookup_insert_ne, lookup_insert_eq.
    + intros k ? ? ?. by rewrite !lookup_insert_ne.
    + exists le. split; [done|]. apply lookup_insert_eq.
    + by rewrite !lookup_insert_ne.
Qed.

Lemma ensure_list_present (k : string) (state : pydict) :
  is_Some (state !! k) → ensure_list k state = state.
Proof. intros [v Hv]. unfold ensure_list. by rewrite Hv. Qed.

Lemma mock_intake_as_ensured (state : pydict) :
  has_logs state →
  mock_property_data_collection_node state
  = let completeness := data_completeness state in
    let state' := <["current_step" := VStr "property_data_collected"]> state in
    if String.eqb completeness "INCOMPLETE" then
      append_to "errors" (VStr (insufficient_message state))
                (ensure_list "errors" state')
    else if String.eqb completeness "PARTIAL" then
      append_to "warnings" (VStr (partial_message state))
                (ensure_list "warnings" state')
    else Ok state'.
Proof.
  intros [[le He] [lw Hw]]. unfold mock_property_data_collection_node.
  cbv zeta. rewrite !ensure_list_present; [done| |].
  - rewrite lookup_insert_ne by done. eauto.
  - rewrite lookup_insert_ne by done. eauto.
Qed.

Lemma mock_intake_outcome (state : pydict) :
  has_logs state →
  ∃ state', mock_property_data_collection_node state = Ok state'
            ∧ intake_outcome (missing_fields state) state state'.
Proof.
  intros H. rewrite (mock_intake_as_ensured _ H).
  apply intake_writes_outcome. by apply has_logs_weaken.
Qed.

Lemma elem_of_missing_fields (state : pydict) (field : string) :
  field ∈ missing_fields state
  ↔ field ∈ required_fields ∧ Py.truthy (Py.get state field) = false.
Proof.
  unfold missing_fields. rewrite !list_elem_of_In, filter_In.
  by rewrite negb_true_iff.
Qed.

Lemma sample_a2a_state_has_logs : has_logs sample_a2a_state.
Proof. split; exists []; reflexivity. Qed.

Lemma zero_square_footage_state_has_logs : has_logs zero_square_footage_state.
Proof. split; exists []; reflexivity. Qed.

(** ** C4 *)

(** C4, as the code has it.  DataIntake counts as missing every required
    attribute (square footage, bedrooms, bathrooms, year built) whose value
    is falsy: absent, [None], or a zero.  With [missing] that count: 0 gives
    COMPLETE, no log entry and quality score 100; 1 or 2 give PARTIAL and
    exactly one warning naming the missing fields; 3 or more give INCOMPLETE
    and exactly one error (4 missing: score 20); the score is
    [max(0, 100 - 20 * missing)]; [current_step] becomes the fixed marker in
    every case and nothing else in the record changes.  The offline stage
    needs both logs in the record; the stage of [nodes.py] creates a missing
    log, and returns when its prompt and model call do. *)
Theorem data_intake_completeness (llm : llm_oracle) (state : pydict) :
  (has_logs state →
     ∃ state', mock_property_data_collection_node state = Ok state'
               ∧ intake_outcome (missing_fields state) state state')
  ∧ (has_or_lacks_logs state →
     is_Some (state !! "property_address") →
     is_Some (state !! "property_type") →
     llm_data_collection llm = Ok tt →
     ∃ state', property_data_collection_node llm state = Ok state'
               ∧ intake_outcome (missing_fields state) state state')
  ∧ (∀ field, field ∈ missing_fields state
              ↔ field ∈ required_fields
                ∧ Py.truthy (Py.get state field) = false).
Proof.
  split; [|split].
  - apply mock_intake_outcome.
  - intros Hlogs Haddr Htype Hllm. unfold property_data_collection_node.
    rewrite (reads_present _ _ Haddr), (reads_present _ _ Htype).
    cbn [mbind result_bind]. rewrite Hllm. cbn [mbind result_bind].
    by apply intake_writes_outcome.
  - apply elem_of_missing_fields.
Qed.

Lemma data_intake_completeness_witness :
  has_logs zero_square_footage_state
  ∧ ∃ state', mock_property_data_collection_node zero_square_footage_state
              = Ok state'
      ∧ intake_outcome ["square_footage"] zero_square_footage_state state'.
Proof.
  split; [exact zero_square_footage_state_has_logs|].
  destruct (data_intake_completeness llm_answers zero_square_footage_state)
    as [Hmock _].
  exact (Hmock zero_square_footage_state_has_logs).
Defined.

(** C4 as stated, with [missing] the count of absent attributes, fails on
    the sample record with a square footage of 0: no required attribute is
    absent, yet the stage reports PARTIAL and logs a warning. *)
Lemma data_intake_absent_count_counterexample :
  ¬ (∀ state state',
       has_logs state →
       mock_property_data_collection_node state = Ok state' →
       intake_outcome (absent_fields state) state state').
Proof.
  intros H.
  destruct (mock_intake_outcome _ zero_square_footage_state_has_logs)
    as (state' & Hrun & _).
  destruct (H _ _ zero_square_footage_state_has_logs Hrun)
    as (_ & _ & _ & Hzero & _).
  destruct (Hzero eq_refl) as [Hcomplete _].
  vm_compute in Hcomplete. discriminate.
Qed.

(* ===================================================================== *)
(** * Envelope validation                                                 *)
(* ===================================================================== *)

Lemma eq_str_true (v : value) (k : string) :
  Py.eq_str v k = true ↔ v = VStr k.
Proof.
  destruct v; simpl; try (split; [discriminate | congruence]).
  rewrite String.eqb_eq. split; congruence.
Qed.

Lemma contains_true (k : string) (data : value) :
  Py.contains k data = Ok true ↔ holds_field data k.
Proof.
  destruct data; simpl; try (split; [discriminate | tauto]).
  - split; [congruence | intros ->; reflexivity].
  - rewrite list_elem_of_In. split.
    + intros H. injection H as H. apply existsb_exists in H as (x & Hin & Hx).
      apply eq_str_true in Hx. by subst x.
    + intros H. f_equal. apply existsb_exists. exists (VStr k).
      split; [done|]. by apply eq_str_true.
  - split.
    + intros H. injection H as H. by apply bool_decide_eq_true in H.
    + intros H. f_equal. by apply bool_decide_eq_true.
Qed.

Lemma all_in_true (fields : list string) (data : value) :
  all_in fields data = Ok true ↔ Forall (holds_field data) fields.
Proof.
  induction fields as [|k fields IH]; simpl.
  - split; [constructor | reflexivity].
  - rewrite Forall_cons, <- IH, <- contains_true.
    destruct (Py.contains k data) as [[]|]; simpl; split;
      try tauto; try (intros [? ?]; congruence); try discriminate.
Qed.

Lemma all_in_dict_total (fields : list string) (d : pydict) :
  ∃ b, all_in fields (VDict d) = Ok b.
Proof.
  induction fields as [|k fields [b IH]]; simpl; [eauto|].
  destruct (bool_decide _); eauto.
Qed.

Lemma status_is_success (response : pydict) :
  Py.eq_str (Py.get response "status") "SUCCESS" = true
  ↔ response !! "status" = Some (VStr "SUCCESS").
Proof.
  rewrite eq_str_true. unfold Py.get.
  destruct (response !! "status"); simpl; split; congruence.
Qed.

Lemma validate_true (response : pydict) :
  validate_a2a_response response = Ok true ↔ valid_envelope response.
Proof.
  unfold validate_a2a_response, valid_envelope. fold (payload response).
  pose proof (status_is_success response) as Hs.
  assert (Hreq : all_in ["status"; "request_id"; "agent"] (VDict response) = Ok true
                 ↔ is_Some (response !! "status")
                   ∧ is_Some (response !! "request_id")
                   ∧ is_Some (response !! "agent")).
  { rewrite all_in_true, !Forall_cons, Forall_nil. simpl. tauto. }
  assert (Hdata : all_in ["estimated_value"; "confidence_level"; "valuation_range"]
                    (payload response) = Ok true
                  ↔ holds_field (payload response) "estimated_value"
                    ∧ holds_field (payload response) "confidence_level"
                    ∧ holds_field (payload response) "valuation_range").
  { rewrite all_in_true, !Forall_cons, Forall_nil. tauto. }
  destruct (Py.eq_str (Py.get response "status") "SUCCESS").
  - destruct (all_in_dict_total ["status"; "request_id"; "agent"] response)
      as [b Hb].
    rewrite Hb in *. cbn [mbind result_bind]. destruct b.
    + rewrite Hdata. split; [intros H | intros [_ H]].
      * split; [by apply Hreq|]. done.
      * apply H. by apply Hs.
    + split; [discriminate|]. intros [H _]. apply Hreq in H. discriminate.
  - rewrite Hreq. split; [intros H | tauto].
    split; [done|]. intros H'. apply Hs in H'. discriminate.
Qed.

Lemma validate_rangeless (response data : pydict) :
  response !! "status" = Some (VStr "SUCCESS") →
  response !! "data" = Some (VDict data) →
  data !! "valuation_range" = None →
  validate_a2a_response response = Ok false.
Proof.
  intros Hs Hd Hr. unfold validate_a2a_response.
  apply status_is_success in Hs as ->.
  destruct (all_in_dict_total ["status"; "request_id"; "agent"] response)
    as [b Hb].
  rewrite Hb. cbn [mbind result_bind]. destruct b; [|reflexivity].
  unfold Py.get_or. rewrite Hd. simpl. rewrite Hr.
  destruct (bool_decide (is_Some (data !! "estimated_value")));
    [|reflexivity].
  destruct (bool_decide (is_Some (data !! "confidence_level")));
    [|reflexivity].
  rewrite bool_decide_eq_false_2; [reflexivity|]. by intros [? ?].
Qed.

(** ** C5 *)

(** C5. [validate_a2a_response] returns [True] for an envelope exactly when
    the envelope contains [status], [request_id] and [agent] and, when its
    status is SUCCESS, its data contains [estimated_value],
    [confidence_level] and [valuation_range].  In particular it returns
    [False] on a SUCCESS envelope whose data lacks [valuation_range], and
    [True] on the ERROR envelope that holds the three fields and nothing
    else. *)
Theorem validate_a2a_response_contract :
  (∀ response, validate_a2a_response response = Ok true ↔ valid_envelope response)
  ∧ (∀ response data,
       response !! "status" = Some (VStr "SUCCESS") →
       response !! "data" = Some (VDict data) →
       data !! "valuation_range" = None →
       validate_a2a_response response = Ok false)
  ∧ (∀ request_id agent,
       validate_a2a_response (minimal_error_envelope request_id agent) = Ok true).
Proof.
  split; [exact validate_true|]. split; [exact validate_rangeless|].
  intros request_id agent. reflexivity.
Qed.

Lemma validate_a2a_response_contract_witness :
  validate_a2a_response rangeless_success_envelope = Ok false
  ∧ ¬ valid_envelope rangeless_success_envelope.
Proof.
  destruct validate_a2a_response_contract as (Hiff & Hreject & _).
  assert (H : validate_a2a_response rangeless_success_envelope = Ok false).
  { eapply Hreject; reflexivity. }
  split; [exact H|]. intros Hvalid. apply Hiff in Hvalid. congruence.
Defined.

(* ===================================================================== *)
(** * Request processing                                                  *)
(* ===================================================================== *)

(** ** C6 *)

(** C6. Whatever the workflow does on the record built from the request,
    [process_valuation_request] returns an envelope (it never raises) that
    contains [status], [request_id] and [agent]: when the workflow returns a
    final record, the SUCCESS envelope with data, errors and warnings taken
    from that record; when the workflow raises an exception [e], the
    envelope with status ERROR, the request id, the agent, [str(e)] as
    error message and [None] as data. *)
Theorem process_valuation_request_envelope
    (workflow_invoke : pydict → result pydict) (agent_name : string)
    (str_of_exception : exn → string) (request_id : string)
    (request_data : pydict) (requesting_agent : string) :
  ∃ response,
    process_valuation_request workflow_invoke agent_name str_of_exception
      request_id request_data requesting_agent = Ok response
    ∧ is_Some (response !! "status")
    ∧ is_Some (response !! "request_id")
    ∧ is_Some (response !! "agent")
    ∧ match workflow_invoke
              (initial_state request_data (VStr request_id)
                             (VStr requesting_agent)) with
      | Ok result => success_envelope request_id agent_name result response
      | Raise e =>
          error_envelope request_id agent_name (str_of_exception e) response
      end.
Proof.
  unfold process_valuation_request, try_except.
  destruct (workflow_invoke _) as [result|e]; cbn [mbind result_bind].
  - eexists. split; [reflexivity|].
    repeat split; try reflexivity; eexists; reflexivity.
  - eexists. split; [reflexivity|].
    repeat split; try reflexivity; eexists; reflexivity.
Qed.

(** The default client on the sample request: a SUCCESS envelope that the
    validator accepts. *)
Example mock_client_sample_request :
  ∃ response,
    mock_client sample_draws (λ _, "fault") "req-0001" sample_request
                "MortgageApproval" = Ok response
    ∧ response !! "status" = Some (VStr "SUCCESS")
    ∧ validate_a2a_response response = Ok true.
Proof. eexists. repeat split; vm_compute; reflexivity. Qed.

(** The default client on a request that names no attribute: the linear
    workflow raises in ComparablesAnalysis and the caller gets the ERROR
    envelope. *)
Example mock_client_bare_request :
  mock_client sample_draws
    (λ e, match e with TypeError => "TypeError" | _ => "fault" end)
    "req-0002" bare_request "MortgageApproval"
  = Ok (<["error_message" := VStr "TypeError"]>
        (<["data" := VNone]>
         (minimal_error_envelope (VStr "req-0002")
                                 (VStr "PropertyValuation (Mock)")))).
Proof. vm_compute. reflexivity. Qed.

(* ===================================================================== *)
(** * ResponseDispatch                                                    *)
(* ===================================================================== *)

Lemma truthy_present (state : pydict) (k : string) :
  Py.truthy (Py.get state k) = true → is_Some (state !! k).
Proof. unfold Py.get. destruct (state !! k); [eauto | discriminate]. Qed.

Lemma dispatch_stage_local (enrich : pydict → result unit) (opening : string)
    (state : pydict) :
  Py.truthy (Py.get state "requesting_agent") = false
  ∨ Py.truthy (Py.get state "response_data") = false →
  dispatch_stage enrich opening state = Ok (ready_for_use state).
Proof.
  intros H. unfold dispatch_stage.
  destruct H as [-> | ->]; [reflexivity|]. by rewrite andb_false_r.
Qed.

Lemma dispatch_stage_a2a (enrich : pydict → result unit) (opening : string)
    (state : pydict) (l : list value) :
  Py.truthy (Py.get state "requesting_agent") = true →
  Py.truthy (Py.get state "response_data") = true →
  log "warnings" state = VList l →
  enrich state = Ok tt →
  ∃ state', dispatch_stage enrich opening state = Ok state'
            ∧ dispatched opening state state'.
Proof.
  intros Ha Hp Hl He. unfold dispatch_stage.
  rewrite Ha, Hp, He. cbn [andb mbind result_bind].
  rewrite (append_to_ensured _ _ _ l) by (by rewrite log_step).
  eexists. split; [reflexivity|]. repeat split.
  - exists l. split; [done|]. apply lookup_insert_eq.
  - by rewrite lookup_insert_ne, lookup_insert_eq.
  - intros k ? ?. by rewrite !lookup_insert_ne.
Qed.

Lemma mock_llm_response_summarisable (state : pydict) :
  is_Some (state !! "requesting_agent") →
  summarisable state →
  mock_llm_response state = Ok tt.
Proof.
  intros Hagent (Haddr & d & est & Hd & He & [n Hn] & [? Hl] & [? Hs] & [? Ha]).
  unfold mock_llm_response.
  rewrite (reads_present _ _ Hagent), (reads_present _ _ Haddr).
  cbn [mbind result_bind]. unfold Py.item at 1. rewrite Hd.
  cbn [mbind result_bind Py.subscript]. unfold Py.item.
  rewrite He, Hl, Hs, Ha. cbn [mbind result_bind].
  destruct est; try discriminate; reflexivity.
Qed.

Lemma dispatch_message_text (opening : string) (state : pydict) (a r : string) :
  state !! "requesting_agent" = Some (VStr a) →
  state !! "request_id" = Some (VStr r) →
  dispatch_message opening state = opening +:+ a +:+ " for request " +:+ r.
Proof.
  intros Ha Hr. unfold dispatch_message, Py.get, Py.get_or.
  by rewrite Ha, Hr.
Qed.

(** ** C7 *)

(** C7, as the code has it.  ResponseDispatch appends its warning only when
    the record has both a requesting agent and a response payload.  Without
    a requesting agent (standalone), or without a payload, it appends
    nothing and only marks the record ready for local use.  With both, it
    appends exactly one warning, which names the requester and the request
    id, sets the step marker and changes nothing else, the error log
    included; the offline stage does so when it can print its summary of
    the payload, the stage of [nodes.py] when its model call returns. *)
Theorem response_dispatch_warning (llm : llm_oracle) (state : pydict) :
  (Py.truthy (Py.get state "requesting_agent") = false
   ∨ Py.truthy (Py.get state "response_data") = false →
     mock_a2a_communication_node state = Ok (ready_for_use state)
     ∧ a2a_communication_node llm state = Ok (ready_for_use state))
  ∧ (Py.truthy (Py.get state "requesting_agent") = true →
     Py.truthy (Py.get state "response_data") = true →
     (∃ l, log "warnings" state = VList l) →
     (summarisable state →
        ∃ state', mock_a2a_communication_node state = Ok state'
                  ∧ dispatched "Mock response sent to " state state')
     ∧ (llm_a2a_communication llm = Ok tt →
        ∃ state', a2a_communication_node llm state = Ok state'
                  ∧ dispatched "Response sent to " state state'))
  ∧ (∀ opening a r,
       state !! "requesting_agent" = Some (VStr a) →
       state !! "request_id" = Some (VStr r) →
       dispatch_message opening state
       = opening +:+ a +:+ " for request " +:+ r).
Proof.
  split; [|split].
  - intros H. split; by apply dispatch_stage_local.
  - intros Hagent Hpayload [l Hl]. split.
    + intros Hsum. apply (dispatch_stage_a2a _ _ _ l); try done.
      apply mock_llm_response_summarisable; [|done].
      by apply truthy_present.
    + intros Hllm. by apply (dispatch_stage_a2a _ _ _ l).
  - intros opening a r. apply dispatch_message_text.
Qed.

Lemma sample_dispatch_input_summarisable : summarisable sample_dispatch_input.
Proof.
  split; [vm_compute; eauto|].
  eexists _, (VFloat (1540000 # 3)).
  split; [vm_compute; reflexivity|].
  split; [vm_compute; reflexivity|].
  repeat split; vm_compute; eauto.
Qed.

Lemma response_dispatch_warning_witness :
  Py.truthy (Py.get sample_dispatch_input "requesting_agent") = true
  ∧ Py.truthy (Py.get sample_dispatch_input "response_data") = true
  ∧ summarisable sample_dispatch_input
  ∧ ∃ state', mock_a2a_communication_node sample_dispatch_input = Ok state'
      ∧ dispatched "Mock response sent to " sample_dispatch_input state'
      ∧ state' !! "warnings"
        = Some (VList [VStr "Mock response sent to MortgageApproval for request req-0001"]).
Proof.
  assert (Ha : Py.truthy (Py.get sample_dispatch_input "requesting_agent") = true)
    by (vm_compute; reflexivity).
  assert (Hp : Py.truthy (Py.get sample_dispatch_input "response_data") = true)
    by (vm_compute; reflexivity).
  assert (Hw : ∃ l, log "warnings" sample_dispatch_input = VList l)
    by (exists []; vm_compute; reflexivity).
  split; [exact Ha|]. split; [exact Hp|].
  split; [exact sample_dispatch_input_summarisable|].
  destruct (response_dispatch_warning llm_answers sample_dispatch_input)
    as (_ & Hboth & Htext).
  destruct (Hboth Ha Hp Hw) as [Hmock _].
  destruct (Hmock sample_dispatch_input_summarisable) as (state' & Hrun & Hd).
  exists state'. split; [exact Hrun|]. split; [exact Hd|].
  destruct Hd as ((l & Hl & Hw') & _).
  rewrite Hw'.
  rewrite (Htext "Mock response sent to " "MortgageApproval" "req-0001")
    by (vm_compute; reflexivity).
  assert (l = []) as -> by (vm_compute in Hl; congruence).
  reflexivity.
Defined.

(** C7 as stated fails for an A2A invocation whose record has no response
    payload, which is how a record leaves DataIntake: the requester is
    there, the stage returns, and no warning is appended. *)
Lemma response_dispatch_without_payload_counterexample :
  ¬ (∀ state state',
       Py.truthy (Py.get state "requesting_agent") = true →
       mock_a2a_communication_node state = Ok state' →
       appended "warnings" (dispatch_message "Mock response sent to " state)
                state state').
Proof.
  intros H.
  assert (Ha : Py.truthy (Py.get bare_a2a_state "requesting_agent") = true)
    by (vm_compute; reflexivity).
  assert (Hrun : mock_a2a_communication_node bare_a2a_state
                 = Ok (ready_for_use bare_a2a_state)).
  { apply dispatch_stage_local. right. vm_compute. reflexivity. }
  destruct (H _ _ Ha Hrun) as (l & Hl & Hw).
  vm_compute in Hl. injection Hl as <-.
  vm_compute in Hw. discriminate.
Qed.

(* ===================================================================== *)
(** * What each stage writes                                              *)
(* ===================================================================== *)

Lemma writes_only_refl (keys : list string) (state : pydict) :
  writes_only keys state state.
Proof. by intros k _. Qed.

Lemma writes_only_insert (keys : list string) (k : string) (v : value)
    (state state' : pydict) :
  k ∈ keys → writes_only keys state state' →
  writes_only keys state (<[k := v]> state').
Proof.
  intros Hk H j Hj. rewrite lookup_insert_ne; [by apply H|].
  intros ->. contradiction.
Qed.

Lemma writes_only_append_to (keys : list string) (k : string) (x : value)
    (state state' state'' : pydict) :
  k ∈ keys → writes_only keys state state' →
  append_to k x state' = Ok state'' →
  writes_only keys state state''.
Proof.
  intros Hk H Happ. unfold append_to in Happ.
  destruct (state' !! k) as [[]|]; try discriminate.
  injection Happ as <-. by apply writes_only_insert.
Qed.

Lemma writes_only_ensure_list (keys : list string) (k : string)
    (state state' : pydict) :
  k ∈ keys → writes_only keys state state' →
  writes_only keys state (ensure_list k state').
Proof.
  intros Hk H. unfold ensure_list.
  destruct (state' !! k); [done|]. by apply writes_only_insert.
Qed.

Ltac in_keys := unfold intake_keys, comparables_keys, market_keys,
  valuation_keys, dispatch_keys; compute_done.

Lemma mock_intake_writes (state state' : pydict) :
  mock_property_data_collection_node state = Ok state' →
  writes_only intake_keys state state'.
Proof.
  unfold mock_property_data_collection_node. cbv zeta. intros H.
  assert (H0 : writes_only intake_keys state
                 (<["current_step" := VStr "property_data_collected"]> state))
    by (apply writes_only_insert; [in_keys | apply writes_only_refl]).
  repeat case_match.
  - eapply writes_only_append_to; [| exact H0 | exact H]. in_keys.
  - eapply writes_only_append_to; [| exact H0 | exact H]. in_keys.
  - by injection H as <-.
Qed.

Lemma intake_writes (llm : llm_oracle) (state state' : pydict) :
  property_data_collection_node llm state = Ok state' →
  writes_only intake_keys state state'.
Proof.
  unfold property_data_collection_node. intros H.
  repeat (apply bind_Ok in H as (? & _ & H)). cbv zeta in H.
  assert (H0 : writes_only intake_keys state
                 (<["current_step" := VStr "property_data_collected"]> state))
    by (apply writes_only_insert; [in_keys | apply writes_only_refl]).
  repeat case_match.
  - eapply writes_only_append_to; [| | exact H]; [in_keys|].
    apply writes_only_ensure_list; [in_keys | exact H0].
  - eapply writes_only_append_to; [| | exact H]; [in_keys|].
    apply writes_only_ensure_list; [in_keys | exact H0].
  - by injection H as <-.
Qed.

Lemma comparables_stage_writes (enrich : pydict → result unit)
    (state state' : pydict) (d : comparables_draws) :
  comparables_stage enrich state d = Ok state' →
  writes_only comparables_keys state state'.
Proof.
  unfold comparables_stage. intros H.
  repeat (apply bind_Ok in H as (? & _ & H)). injection H as <-.
  repeat (apply writes_only_insert; [in_keys|]). apply writes_only_refl.
Qed.

Lemma market_stage_writes (enrich : pydict → result unit)
    (state state' : pydict) (m : market_draws) :
  market_stage enrich state m = Ok state' →
  writes_only market_keys state state'.
Proof.
  unfold market_stage. intros H.
  repeat (apply bind_Ok in H as (? & _ & H)). injection H as <-.
  repeat (apply writes_only_insert; [in_keys|]). apply writes_only_refl.
Qed.

Lemma final_valuation_stage_writes (enrich : pydict → result unit)
    (opening : string) (state state' : pydict) :
  final_valuation_stage enrich opening state = Ok state' →
  writes_only valuation_keys state state'.
Proof.
  unfold final_valuation_stage. intros H.
  repeat (apply bind_Ok in H as (? & _ & H)). injection H as <-.
  repeat (apply writes_only_insert; [in_keys|]). apply writes_only_refl.
Qed.

Lemma dispatch_stage_writes (enrich : pydict → result unit) (opening : string)
    (state state' : pydict) :
  dispatch_stage enrich opening state = Ok state' →
  writes_only dispatch_keys state state'.
Proof.
  unfold dispatch_stage. intros H. case_match.
  - apply bind_Ok in H as (? & _ & H). cbv zeta in H.
    eapply writes_only_append_to; [| | exact H]; [in_keys|].
    apply writes_only_ensure_list; [in_keys|].
    apply writes_only_insert; [in_keys | apply writes_only_refl].
  - injection H as <-.
    apply writes_only_insert; [in_keys | apply writes_only_refl].
Qed.

Lemma writes_only_trans (keys : list string) (s1 s2 s3 : pydict) :
  writes_only keys s1 s2 → writes_only keys s2 s3 → writes_only keys s1 s3.
Proof. intros H12 H23 k Hk. rewrite H23, H12; done. Qed.

Lemma writes_only_mono (keys keys' : list string) (s1 s2 : pydict) :
  keys ⊆ keys' → writes_only keys s1 s2 → writes_only keys' s1 s2.
Proof. intros Hsub H k Hk. apply H. intros Hin. apply Hk, Hsub, Hin. Qed.

(* ===================================================================== *)
(** * Conditional routing                                                 *)
(* ===================================================================== *)

Lemma router_on_errors (s1 : pydict) (l : list value) :
  s1 !! "errors" = Some (VList l) → l ≠ [] →
  should_continue_after_data_collection s1 = Ok ("a2a_communication", s1).
Proof.
  intros He Hl. unfold should_continue_after_data_collection, Py.get_or.
  rewrite He. cbn [default Py.len mbind result_bind].
  destruct l; [done|]. reflexivity.
Qed.

Lemma run_from_step (limit : nat) (w : workflow) (d : draws) (n : node_name)
    (state : pydict) (done : list (node_name * pydict)) :
  run_from (S limit) w d n state done
  = match node w n d state with
    | Raise e => {| history := done; outcome := Raise e |}
    | Ok state' =>
        let done' := done ++ [(n, state')] in
        match edge_from w n with
        | add_edge None => {| history := done'; outcome := Ok state' |}
        | add_edge (Some next) => run_from limit w d next state' done'
        | add_conditional_edges router path_map =>
            match router state' with
            | Raise e => {| history := done'; outcome := Raise e |}
            | Ok (label, state'') =>
                match lookup_path label path_map with
                | None =>
                    {| history := done'; outcome := Raise (KeyError label) |}
                | Some next => run_from limit w d next state'' done'
                end
            end
        end
    end.
Proof. reflexivity. Qed.

Lemma invoke_conditional_errors (d : draws) (state s1 : pydict)
    (l : list value) :
  mock_property_data_collection_node state = Ok s1 →
  s1 !! "errors" = Some (VList l) → l ≠ [] →
  invoke create_mock_conditional_property_valuation_workflow d state
  = short_circuit s1.
Proof.
  intros Hrun He Hl. unfold invoke, short_circuit.
  change 25%nat with (S (S 23)).
  rewrite run_from_step.
  change (node create_mock_conditional_property_valuation_workflow
            (entry_point create_mock_conditional_property_valuation_workflow)
            d state)
    with (mock_property_data_collection_node state).
  rewrite Hrun.
  change (edge_from create_mock_conditional_property_valuation_workflow
            (entry_point create_mock_conditional_property_valuation_workflow))
    with (add_conditional_edges should_continue_after_data_collection
            [ ("comparables", comparables);
              ("a2a_communication", a2a_communication) ]).
  cbv beta iota zeta. rewrite (router_on_errors _ _ He Hl).
  cbv beta iota.
  change (lookup_path "a2a_communication"
            [("comparables", comparables);
             ("a2a_communication", a2a_communication)])
    with (Some a2a_communication).
  cbv beta iota. rewrite run_from_step.
  change (node create_mock_conditional_property_valuation_workflow
            a2a_communication d s1)
    with (mock_a2a_communication_node s1).
  destruct (mock_a2a_communication_node s1); reflexivity.
Qed.

(** ** C8 *)

(** C8. Under conditional routing, when DataIntake returns a record [s1]
    whose error log is not empty, the run is DataIntake followed at once by
    ResponseDispatch on [s1]: ComparablesAnalysis, MarketAnalysis and
    FinalValuation are not executed, and a record the run returns agrees
    with the initial record on every key but the step marker and the two
    logs, so that result fields that were unset are still unset.  When the
    record has no payload, as a fresh one has none, the run does return. *)
Theorem errors_skip_to_dispatch (d : draws) (state s1 : pydict)
    (l : list value) :
  mock_property_data_collection_node state = Ok s1 →
  s1 !! "errors" = Some (VList l) → l ≠ [] →
  let r := invoke create_mock_conditional_property_valuation_workflow d state in
  r = short_circuit s1
  ∧ (comparables ∉ executed r)
  ∧ (market_analysis ∉ executed r)
  ∧ (final_valuation ∉ executed r)
  ∧ (∀ s2, outcome r = Ok s2 →
       executed r = [data_collection; a2a_communication]
       ∧ writes_only intake_keys state s2
       ∧ s2 !! "estimated_value" = state !! "estimated_value"
       ∧ s2 !! "confidence_level" = state !! "confidence_level"
       ∧ s2 !! "valuation_range" = state !! "valuation_range"
       ∧ s2 !! "response_data" = state !! "response_data")
  ∧ (Py.truthy (Py.get state "response_data") = false →
     outcome r = Ok (ready_for_use s1)).
Proof.
  intros Hrun He Hl r.
  assert (Hr : r = short_circuit s1) by (by eapply invoke_conditional_errors).
  assert (Hexec : executed r = [data_collection; a2a_communication]
                  ∨ executed r = [data_collection]).
  { rewrite Hr. unfold short_circuit.
    destruct (mock_a2a_communication_node s1); [left | right]; reflexivity. }
  split; [exact Hr|].
  assert (Hnot : ∀ n, n ≠ data_collection → n ≠ a2a_communication →
                      n ∉ executed r).
  { intros n H1 H2 Hin.
    destruct Hexec as [Hx | Hx]; rewrite Hx in Hin;
      repeat (apply elem_of_cons in Hin as [Hin | Hin]; [congruence|]);
      by apply elem_of_nil in Hin. }
  split; [by apply Hnot|]. split; [by apply Hnot|]. split; [by apply Hnot|].
  split.
  - intros s2 Hout. rewrite Hr in Hout |- *. unfold short_circuit in *.
    destruct (mock_a2a_communication_node s1) as [s2'|] eqn:Ha;
      [|discriminate].
    injection Hout as ->.
    assert (Hw : writes_only intake_keys state s2).
    { eapply writes_only_trans; [by apply mock_intake_writes|].
      eapply writes_only_mono; [|by eapply dispatch_stage_writes].
      in_keys. }
    split; [reflexivity|]. split; [exact Hw|].
    repeat split; apply Hw; in_keys.
  - intros Hp. rewrite Hr. unfold short_circuit.
    assert (Hp1 : Py.truthy (Py.get s1 "response_data") = false).
    { unfold Py.get in *.
      rewrite (mock_intake_writes _ _ Hrun "response_data"); [done | in_keys]. }
    unfold mock_a2a_communication_node.
    rewrite dispatch_stage_local by (by right). reflexivity.
Qed.

Lemma bare_a2a_state_errors :
  bare_a2a_state !! "errors"
  = Some (VList [VStr "Insufficient property data: missing ['square_footage', 'bedrooms', 'bathrooms', 'year_built']"]).
Proof. reflexivity. Qed.

Lemma errors_skip_to_dispatch_witness :
  mock_property_data_collection_node
    (initial_state bare_request (VStr "req-0002") (VStr "MortgageApproval"))
  = Ok bare_a2a_state
  ∧ executed
      (invoke create_mock_conditional_property_valuation_workflow sample_draws
         (initial_state bare_request (VStr "req-0002") (VStr "MortgageApproval")))
    = [data_collection; a2a_communication]
  ∧ outcome
      (invoke create_mock_conditional_property_valuation_workflow sample_draws
         (initial_state bare_request (VStr "req-0002") (VStr "MortgageApproval")))
    = Ok (ready_for_use bare_a2a_state).
Proof.
  assert (Hrun : mock_property_data_collection_node
            (initial_state bare_request (VStr "req-0002") (VStr "MortgageApproval"))
          = Ok bare_a2a_state) by reflexivity.
  assert (Hne : [VStr "Insufficient property data: missing ['square_footage', 'bedrooms', 'bathrooms', 'year_built']"]
                ≠ []) by discriminate.
  destruct (errors_skip_to_dispatch sample_draws _ _ _ Hrun
              bare_a2a_state_errors Hne) as (_ & _ & _ & _ & Hret & Hfresh).
  assert (Hout := Hfresh eq_refl).
  split; [exact Hrun|]. split; [|exact Hout].
  exact (proj1 (Hret _ Hout)).
Defined.

(* ===================================================================== *)
(** * The degraded envelope                                               *)
(* ===================================================================== *)

Lemma stage_returned_writes (state state' : pydict) :
  stage_returned state state' → writes_only stage_keys state state'.
Proof.
  intros (llm & n & d & [H | H]); destruct n; simpl in H;
    unfold mock_comparable_properties_node, comparable_properties_node,
      mock_market_analysis_node, market_analysis_node,
      mock_final_valuation_node, final_valuation_node,
      mock_a2a_communication_node, a2a_communication_node in H;
    (eapply writes_only_mono;
     [| first [ eapply mock_intake_writes; exact H
              | eapply intake_writes; exact H
              | eapply comparables_stage_writes; exact H
              | eapply market_stage_writes; exact H
              | eapply final_valuation_stage_writes; exact H
              | eapply dispatch_stage_writes; exact H ] ]);
    unfold stage_keys; in_keys.
Qed.

Lemma safe_response_status (state : pydict) :
  create_safe_response state !! "status"
  = Some (VStr (if Py.truthy (Py.get state "estimated_value")
                then "PARTIAL_SUCCESS" else "ERROR")).
Proof.
  unfold create_safe_response.
  destruct (Py.truthy (Py.get state "estimated_value")) eqn:E.
  - assert (Hget : ∀ base : pydict,
      Py.get (<["valuation_range" := Py.get state "valuation_range"]>
              (<["confidence_score" := Py.get_or state "confidence_score" (VInt 0)]>
              (<["confidence_level" := Py.get_or state "confidence_level" (VStr "LOW")]>
              (<["estimated_value" := Py.get state "estimated_value"]> base))))
        "estimated_value" = Py.get state "estimated_value").
    { intros base. unfold Py.get at 1.
      rewrite !lookup_insert_ne by done. by rewrite lookup_insert_eq. }
    cbv zeta. rewrite Hget, E. reflexivity.
  - reflexivity.
Qed.

Lemma safe_response_rejected (state : pydict) :
  validate_a2a_response (create_safe_response state) = Ok false.
Proof.
  unfold validate_a2a_response, Py.get.
  rewrite safe_response_status. cbn [default].
  destruct (Py.truthy (Py.get state "estimated_value")); reflexivity.
Qed.

Lemma safe_response_partial (state : pydict) :
  Py.truthy (Py.get state "estimated_value") = true →
  nested (create_safe_response state) "data" "confidence_score"
  = Some (Py.get_or state "confidence_score" (VInt 0))
  ∧ nested (create_safe_response state) "data" "estimated_value"
    = Some (Py.get state "estimated_value").
Proof.
  intros E. unfold create_safe_response. rewrite E. cbv zeta.
  unfold nested. split.
  - match goal with
    | |- match list_to_map ?l !! "data" with _ => _ end = _ =>
        change (list_to_map l !! "data") with (Some (snd (nth 2 l ("", VNone))))
    end.
    cbn [nth snd]. rewrite lookup_insert_ne by done. apply lookup_insert_eq.
  - match goal with
    | |- match list_to_map ?l !! "data" with _ => _ end = _ =>
        change (list_to_map l !! "data") with (Some (snd (nth 2 l ("", VNone))))
    end.
    cbn [nth snd]. rewrite !lookup_insert_ne by done. apply lookup_insert_eq.
Qed.

Lemma safe_response_no_request_id (state : pydict) :
  create_safe_response state !! "request_id" = None.
Proof. reflexivity. Qed.

(** ** C10 *)

(** C10, as the code has it.  The envelope of [create_safe_response] has
    status PARTIAL_SUCCESS exactly when the record's [estimated_value] is
    truthy, that is set and not zero, and ERROR otherwise; it never has a
    [request_id] key, so [validate_a2a_response] always returns [False] on
    it; with a truthy estimate the reported [confidence_score] is the
    record's own [confidence_score] key (0 when there is none), a key that
    no stage of either pipeline assigns: a stage returns the record with
    that key as it found it. *)
Theorem safe_response_degraded (state : pydict) :
  let response := create_safe_response state in
  response !! "status"
  = Some (VStr (if Py.truthy (Py.get state "estimated_value")
                then "PARTIAL_SUCCESS" else "ERROR"))
  ∧ response !! "request_id" = None
  ∧ validate_a2a_response response = Ok false
  ∧ (Py.truthy (Py.get state "estimated_value") = true →
     nested response "data" "confidence_score"
     = Some (Py.get_or state "confidence_score" (VInt 0))
     ∧ nested response "data" "estimated_value"
       = Some (Py.get state "estimated_value"))
  ∧ (∀ state', stage_returned state state' →
       state' !! "confidence_score" = state !! "confidence_score").
Proof.
  intros response. subst response.
  split; [apply safe_response_status|].
  split; [apply safe_response_no_request_id|].
  split; [apply safe_response_rejected|].
  split; [apply safe_response_partial|].
  intros state' H. apply (stage_returned_writes _ _ H).
  unfold stage_keys. in_keys.
Qed.

Lemma safe_response_degraded_witness :
  Py.truthy (Py.get sample_dispatch_input "estimated_value") = true
  ∧ nested sample_dispatch_input "response_data" "confidence_score"
    = Some (VInt 70)
  ∧ nested (create_safe_response sample_dispatch_input) "data" "confidence_score"
    = Some (VInt 0).
Proof.
  assert (He : Py.truthy (Py.get sample_dispatch_input "estimated_value") = true)
    by (vm_compute; reflexivity).
  split; [exact He|]. split; [vm_compute; reflexivity|].
  destruct (safe_response_degraded sample_dispatch_input)
    as (_ & _ & _ & Hpartial & _).
  destruct (Hpartial He) as [Hscore _]. rewrite Hscore.
  vm_compute. reflexivity.
Defined.

(** C10 as stated fails on a record whose estimate is set to zero: the
    estimate is not null, and the status is ERROR. *)
Lemma safe_response_zero_estimate_counterexample :
  ¬ (∀ state,
       create_safe_response state !! "status" = Some (VStr "PARTIAL_SUCCESS")
       ↔ Py.get state "estimated_value" ≠ VNone).
Proof.
  intros H.
  assert (Hset : Py.get zero_estimate_state "estimated_value" ≠ VNone)
    by (vm_compute; discriminate).
  apply H in Hset. vm_compute in Hset. discriminate.
Qed.

(* ===================================================================== *)
(** * The result fields: all or nothing                                   *)
(* ===================================================================== *)

Lemma record_ok_agree (state state' : pydict) :
  (∀ k, k ∈ result_keys → state' !! k = state !! k) →
  record_ok state → record_ok state'.
Proof.
  intros H (Hres & Havg & Hadj).
  assert (Hest := H "estimated_value" ltac:(compute_done)).
  assert (Hlvl := H "confidence_level" ltac:(compute_done)).
  assert (Hrng := H "valuation_range" ltac:(compute_done)).
  assert (Hpay := H "response_data" ltac:(compute_done)).
  assert (Hfin := H "final_assessment" ltac:(compute_done)).
  assert (Hca := H "comparable_analysis" ltac:(compute_done)).
  assert (Hma := H "market_adjustment" ltac:(compute_done)).
  unfold record_ok, results_consistent, results_unset, results_set, nested,
    Py.get in *.
  rewrite Hest, Hlvl, Hrng, Hpay, Hfin, Hca, Hma. done.
Qed.

Lemma record_ok_writes (keys : list string) (state state' : pydict) :
  (∀ k, k ∈ result_keys → k ∉ keys) →
  writes_only keys state state' →
  record_ok state → record_ok state'.
Proof. intros Hdisj Hw. apply record_ok_agree. intros k Hk. by apply Hw, Hdisj. Qed.

Ltac disjoint_keys :=
  let k := fresh "k" in let Hk := fresh "Hk" in
  intros k Hk; unfold result_keys in Hk;
  repeat (apply elem_of_cons in Hk as [-> | Hk]; [in_keys|]);
  by apply elem_of_nil in Hk.

Lemma initial_state_ok (request_data : pydict) (request_id requesting_agent : value) :
  record_ok (initial_state request_data request_id requesting_agent).
Proof.
  split; [|split].
  - left. repeat split.
  - intros v H. discriminate H.
  - intros v H. discriminate H.
Qed.

Lemma avg_price_nonneg (d : comparables_draws) :
  comparables_draws_valid d = true → (0 <= avg_price d)%Q.
Proof.
  unfold comparables_draws_valid, in_range. intros H.
  repeat (apply andb_prop in H as [H ?]).
  repeat match goal with
         | H : (_ <=? _)%Z = true |- _ => apply Z.leb_le in H
         end.
  unfold avg_price, Py.fdiv, sold_prices. rewrite Qred_correct.
  cbn [fold_left length].
  apply Qle_shift_div_l; [reflexivity|].
  rewrite Qmult_0_l. change 0%Q with (inject_Z 0). rewrite <- Zle_Qle. lia.
Qed.

Lemma percent_factor_nonneg (t : Z) :
  (-20 ≤ t)%Z → (0 <= 1 + inject_Z t / inject_Z 100)%Q.
Proof.
  intros H. rewrite Zle_Qle in H.
  unfold Qdiv. change (/ inject_Z 100)%Q with (1 # 100).
  change (inject_Z (-20)) with (-20 # 1) in H.
  lra.
Qed.

Lemma tier_half_width_nonneg (flags : nat) : (0 <= tier_half_width flags)%Q.
Proof. destruct flags as [|[|?]]; simpl; lra. Qed.

Lemma comparables_stage_ok (enrich : pydict → result unit)
    (state state' : pydict) (d : comparables_draws) :
  comparables_draws_valid d = true →
  comparables_stage enrich state d = Ok state' →
  record_ok state → record_ok state'.
Proof.
  intros Hvalid Hrun (Hres & _ & Hadj).
  pose proof (comparables_stage_writes _ _ _ _ Hrun) as Hw.
  assert (Hca : nested state' "comparable_analysis" "average_sale_price"
                = Some (VFloat (avg_price d))).
  { unfold comparables_stage in Hrun.
    repeat (apply bind_Ok in Hrun as (? & _ & Hrun)). injection Hrun as <-.
    unfold nested. rewrite lookup_insert_ne by done. rewrite lookup_insert_eq.
    reflexivity. }
  assert (Hkeep : ∀ k, k ∈ result_keys → k ≠ "comparable_analysis" →
                       state' !! k = state !! k).
  { intros k Hk Hne. apply Hw. unfold result_keys in Hk.
    repeat (apply elem_of_cons in Hk as [-> | Hk]; [first [done | in_keys]|]).
    by apply elem_of_nil in Hk. }
  assert (Hest := Hkeep "estimated_value" ltac:(compute_done) ltac:(done)).
  assert (Hlvl := Hkeep "confidence_level" ltac:(compute_done) ltac:(done)).
  assert (Hrng := Hkeep "valuation_range" ltac:(compute_done) ltac:(done)).
  assert (Hpay := Hkeep "response_data" ltac:(compute_done) ltac:(done)).
  assert (Hfin := Hkeep "final_assessment" ltac:(compute_done) ltac:(done)).
  assert (Hma := Hkeep "market_adjustment" ltac:(compute_done) ltac:(done)).
  split; [|split].
  - unfold results_consistent, results_unset, results_set, nested, Py.get in *.
    by rewrite Hest, Hlvl, Hrng, Hpay, Hfin.
  - intros v Hv. rewrite Hca in Hv. injection Hv as <-.
    eexists. split; [reflexivity|]. by apply avg_price_nonneg.
  - unfold nested in *. by rewrite Hma.
Qed.

Lemma market_stage_ok (enrich : pydict → result unit)
    (state state' : pydict) (m : market_draws) :
  market_stage enrich state m = Ok state' →
  record_ok state → record_ok state'.
Proof.
  intros Hrun (Hres & Havg & _).
  pose proof (market_stage_writes _ _ _ _ Hrun) as Hw.
  pose proof (market_stage_total _ _ _ _ Hrun) as Hma.
  assert (Hkeep : ∀ k, k ∈ result_keys → k ≠ "market_adjustment" →
                       state' !! k = state !! k).
  { intros k Hk Hne. apply Hw. unfold result_keys in Hk.
    repeat (apply elem_of_cons in Hk as [-> | Hk]; [first [done | in_keys]|]).
    by apply elem_of_nil in Hk. }
  assert (Hest := Hkeep "estimated_value" ltac:(compute_done) ltac:(done)).
  assert (Hlvl := Hkeep "confidence_level" ltac:(compute_done) ltac:(done)).
  assert (Hrng := Hkeep "valuation_range" ltac:(compute_done) ltac:(done)).
  assert (Hpay := Hkeep "response_data" ltac:(compute_done) ltac:(done)).
  assert (Hfin := Hkeep "final_assessment" ltac:(compute_done) ltac:(done)).
  assert (Hca := Hkeep "comparable_analysis" ltac:(compute_done) ltac:(done)).
  split; [|split].
  - unfold results_consistent, results_unset, results_set, nested, Py.get in *.
    by rewrite Hest, Hlvl, Hrng, Hpay, Hfin.
  - unfold nested in *. by rewrite Hca.
  - intros v Hv. rewrite Hma in Hv. injection Hv as <-.
    eexists. split; [reflexivity|]. unfold clamp. repeat case_match; lia.
Qed.

Lemma final_valuation_stage_ok (enrich : pydict → result unit)
    (opening : string) (state state' : pydict) :
  final_valuation_stage enrich opening state = Ok state' →
  record_ok state → record_ok state'.
Proof.
  intros Hrun (_ & Havg & Hadj).
  pose proof (final_valuation_stage_writes _ _ _ _ Hrun) as Hw.
  destruct (final_valuation_stage_enters _ _ _ _ Hrun)
    as (Henrich & b & p & n & Henter).
  destruct (final_valuation_stage_valued enrich opening _ _ _ _ Henter Henrich)
    as (s & Hs & Hval).
  assert (s = state') as -> by congruence.
  destruct Henter as ((bv & Hbv & Hb) & (pv & Hpv & Hp) & _).
  destruct (Havg _ Hbv) as (q & -> & Hq).
  destruct (Hadj _ Hpv) as (t & -> & Ht).
  injection Hb as <-. injection Hp as <-.
  destruct Hval as (est & lo & hi & He & Heq & Hl & _ & Hsc & Hfa & Hlo & Hhi
                    & Hdlo & Hdhi).
  cbn [Py.to_Q] in *.
  set (hw := tier_half_width _) in *.
  assert (Hhw : (0 <= hw)%Q) by apply tier_half_width_nonneg.
  assert (Hf : (0 <= 1 + inject_Z t / inject_Z 100)%Q)
    by (apply percent_factor_nonneg; lia).
  assert (Hest : (0 <= est)%Q).
  { rewrite Heq. by apply Qmult_le_0_compat. }
  assert (Hprod : (0 <= hw * est)%Q) by (by apply Qmult_le_0_compat).
  split; [|split].
  - right. exists est, lo, hi. do 2 eexists.
    repeat split; try eassumption; lra.
  - intros v Hv. apply Havg. unfold nested in *.
    rewrite <- (Hw "comparable_analysis"); [done | in_keys].
  - intros v Hv. apply Hadj. unfold nested in *.
    rewrite <- (Hw "market_adjustment"); [done | in_keys].
Qed.

Lemma stage_ok (llm : llm_oracle) (n : node_name) (d : draws)
    (state state' : pydict) :
  comparables_draws_valid (comparables_of d) = true →
  mock_nodes n d state = Ok state' ∨ llm_nodes llm n d state = Ok state' →
  record_ok state → record_ok state'.
Proof.
  intros Hvalid [H | H] Hok; destruct n; simpl in H;
    unfold mock_comparable_properties_node, comparable_properties_node,
      mock_market_analysis_node, market_analysis_node,
      mock_final_valuation_node, final_valuation_node,
      mock_a2a_communication_node, a2a_communication_node in H.
  - apply (record_ok_writes intake_keys state); [disjoint_keys | | done].
    by apply mock_intake_writes.
  - eapply comparables_stage_ok; [exact Hvalid | exact H | exact Hok].
  - eapply market_stage_ok; [exact H | exact Hok].
  - eapply final_valuation_stage_ok; [exact H | exact Hok].
  - apply (record_ok_writes dispatch_keys state); [disjoint_keys | | done].
    eapply dispatch_stage_writes; exact H.
  - apply (record_ok_writes intake_keys state); [disjoint_keys | | done].
    eapply intake_writes; exact H.
  - eapply comparables_stage_ok; [exact Hvalid | exact H | exact Hok].
  - eapply market_stage_ok; [exact H | exact Hok].
  - eapply final_valuation_stage_ok; [exact H | exact Hok].
  - apply (record_ok_writes dispatch_keys state); [disjoint_keys | | done].
    eapply dispatch_stage_writes; exact H.
Qed.

Lemma router_after_data_collection_same (state state' : pydict) (label : string) :
  should_continue_after_data_collection state = Ok (label, state') →
  state' = state.
Proof.
  unfold should_continue_after_data_collection. intros H.
  apply bind_Ok in H as (n & _ & H). case_match; congruence.
Qed.

Lemma router_after_comparables_writes (state state' : pydict) (label : string) :
  should_continue_after_comparables state = Ok (label, state') →
  writes_only dispatch_keys state state'.
Proof.
  unfold should_continue_after_comparables. intros H.
  repeat (apply bind_Ok in H as (? & _ & H)). case_match.
  - apply bind_Ok in H as (s & Happ & H). injection H as _ <-.
    eapply writes_only_append_to; [| | exact Happ]; [in_keys|].
    apply writes_only_ensure_list; [in_keys | apply writes_only_refl].
  - injection H as _ <-. apply writes_only_refl.
Qed.

(** Every record of a run satisfies what the initial record satisfies and
    the nodes and routing functions of the workflow preserve. *)
Lemma run_from_invariant (P : pydict → Prop) (w : workflow) (d : draws) :
  (∀ n s s', P s → node w n d s = Ok s' → P s') →
  (∀ n router path_map s label s',
     edge_from w n = add_conditional_edges router path_map →
     P s → router s = Ok (label, s') → P s') →
  ∀ limit n s done,
    P s → Forall (λ entry, P (snd entry)) done →
    Forall (λ entry, P (snd entry)) (history (run_from limit w d n s done)).
Proof.
  intros Hnode Hroute. induction limit as [|limit IH]; intros n s done Hs Hdone.
  - exact Hdone.
  - rewrite run_from_step.
    destruct (node w n d s) as [s'|e] eqn:En; [|exact Hdone].
    assert (Hs' : P s') by (by eapply Hnode).
    assert (Hdone' : Forall (λ entry, P (snd entry)) (done ++ [(n, s')])).
    { apply Forall_app. split; [done|]. by repeat constructor. }
    cbv zeta.
    destruct (edge_from w n) as [[next|] | router path_map] eqn:Ee.
    + by apply IH.
    + exact Hdone'.
    + destruct (router s') as [[label s'']|e] eqn:Er; [|exact Hdone'].
      destruct (lookup_path label path_map) as [next|]; [|exact Hdone'].
      apply IH; [|done]. by eapply Hroute.
Qed.

Lemma mock_workflow_history_ok (w : workflow) (d : draws) (state : pydict) :
  w = create_mock_property_valuation_workflow
  ∨ w = create_mock_conditional_property_valuation_workflow →
  comparables_draws_valid (comparables_of d) = true →
  record_ok state →
  Forall (λ entry, record_ok (snd entry)) (history (invoke w d state)).
Proof.
  intros Hw Hvalid Hok. unfold invoke.
  apply run_from_invariant; [| |done|constructor].
  - intros n s s' Hs Hn. apply (stage_ok llm_answers n d s s' Hvalid); [|done].
    left. by destruct Hw as [-> | ->].
  - intros n router path_map s label s' He Hs Hr.
    destruct Hw as [-> | ->]; destruct n; simpl in He; try discriminate.
    + injection He as <- _.
      by rewrite (router_after_data_collection_same _ _ _ Hr).
    + injection He as <- _.
      apply (record_ok_writes dispatch_keys s); [disjoint_keys | | done].
      by eapply router_after_comparables_writes.
Qed.

Lemma sample_draws_valid :
  comparables_draws_valid (comparables_of sample_draws) = true.
Proof. reflexivity. Qed.

(** ** C1 *)

(** C1, as the code has it.  The record has no [confidence_score] field of
    its own: FinalValuation keeps the score in the response payload and in
    the final assessment.  With that reading the results are all or
    nothing after every stage: either the estimate, the level, the range
    and the payload are all null, or the estimate, the level and the range
    are set, the payload and the assessment carry the score, and
    [min_value <= estimated_value <= max_value].  This holds for the fresh
    record, after every stage of a run of either offline workflow on it,
    and it is part of an invariant that every stage of either variant
    preserves (the draws being in their [randint] ranges). *)
Theorem results_all_or_nothing (d : draws) (request_data : pydict)
    (request_id requesting_agent : value) :
  comparables_draws_valid (comparables_of d) = true →
  let fresh := initial_state request_data request_id requesting_agent in
  record_ok fresh
  ∧ (∀ w, w = create_mock_property_valuation_workflow
          ∨ w = create_mock_conditional_property_valuation_workflow →
       Forall (λ entry, results_consistent (snd entry))
              (history (invoke w d fresh)))
  ∧ (∀ llm n state state',
       record_ok state →
       mock_nodes n d state = Ok state' ∨ llm_nodes llm n d state = Ok state' →
       record_ok state')
  ∧ (∀ state, record_ok state → results_consistent state).
Proof.
  intros Hvalid fresh.
  assert (Hfresh : record_ok fresh) by apply initial_state_ok.
  split; [exact Hfresh|]. split; [|split].
  - intros w Hw.
    eapply Forall_impl; [by apply mock_workflow_history_ok|].
    by intros entry [H _].
  - intros llm n state state' Hok Hrun. by eapply stage_ok.
  - by intros state [H _].
Qed.

Lemma results_all_or_nothing_witness :
  comparables_draws_valid (comparables_of sample_draws) = true
  ∧ Forall (λ entry, results_consistent (snd entry))
           (history (invoke create_mock_property_valuation_workflow
                            sample_draws sample_a2a_state))
  ∧ executed (invoke create_mock_property_valuation_workflow
                     sample_draws sample_a2a_state)
    = [data_collection; comparables; market_analysis; final_valuation;
       a2a_communication].
Proof.
  split; [exact sample_draws_valid|]. split; [|vm_compute; reflexivity].
  destruct (results_all_or_nothing sample_draws sample_request
              (VStr "req-0001") (VStr "MortgageApproval") sample_draws_valid)
    as (_ & Hruns & _).
  apply Hruns. by left.
Defined.

Lemma sample_final_state_outcome :
  outcome (invoke create_mock_property_valuation_workflow sample_draws
                  sample_a2a_state) = Ok sample_final_state.
Proof. vm_compute. reflexivity. Qed.

(** C1 as stated fails on the record the sample request ends with: the
    estimate is set, and the record has no [confidence_score]. *)
Lemma results_score_in_record_counterexample :
  ¬ (∀ d state,
       comparables_draws_valid (comparables_of d) = true →
       outcome (invoke create_mock_property_valuation_workflow d
                       sample_a2a_state) = Ok state →
       results_all_set_as_stated state).
Proof.
  intros H.
  destruct (H _ _ sample_draws_valid sample_final_state_outcome)
    as (_ & Hscore & _).
  - vm_compute. discriminate.
  - apply Hscore. vm_compute. reflexivity.
Qed.

(* ===================================================================== *)
(** * Zero, null and absent attributes                                    *)
(* ===================================================================== *)

Lemma missing_fields_ext (s1 s2 : pydict) :
  (∀ field, Py.truthy (Py.get s1 field) = Py.truthy (Py.get s2 field)) →
  missing_fields s1 = missing_fields s2.
Proof.
  intros H. unfold missing_fields.
  induction required_fields as [|f fs IH]; [done|].
  simpl. by rewrite H, IH.
Qed.

Lemma missing_fields_falsy (state : pydict) (field : string) (zero : value) :
  Py.truthy zero = false →
  missing_fields (<[field := zero]> state)
  = missing_fields (<[field := VNone]> state)
  ∧ missing_fields (<[field := zero]> state)
    = missing_fields (delete field state).
Proof.
  intros Hz. split; apply missing_fields_ext; intros f; unfold Py.get.
  - destruct (decide (f = field)) as [-> | Hne].
    + by rewrite !lookup_insert_eq.
    + by rewrite !lookup_insert_ne.
  - destruct (decide (f = field)) as [-> | Hne].
    + by rewrite lookup_insert_eq, lookup_delete_eq.
    + by rewrite lookup_insert_ne, lookup_delete_ne.
Qed.

Lemma plus_addable (v : value) (n : Py.num) :
  addable v → ∃ v', plus v n = Ok v'.
Proof. intros [a Ha]. unfold plus, Py.to_num. rewrite Ha. simpl. eauto. Qed.

Lemma comparables_stage_fallback (enrich : pydict → result unit)
    (state : pydict) (d : comparables_draws) :
  Py.truthy (Py.get state "square_footage") = false →
  addable (Py.get_or state "square_footage" (VInt 2000)) →
  addable (Py.get_or state "bedrooms" (VInt 3)) →
  addable (Py.get_or state "bathrooms" (VInt 2)) →
  enrich state = Ok tt →
  ∃ state', comparables_stage enrich state d = Ok state'
            ∧ price_per_square_foot state'
              = Some (VFloat (Py.fdiv (avg_price d) (inject_Z 2000))).
Proof.
  intros Hfalsy Hs Hb Ha Henrich.
  unfold comparables_stage, comparable_properties, avg_price_per_sqft.
  destruct (plus_addable _ (Py.NInt (sqft_1 d)) Hs) as [? ->].
  destruct (plus_addable _ (Py.NInt (sqft_2 d)) Hs) as [? ->].
  destruct (plus_addable _ (Py.NInt (beds_2 d)) Hb) as [? ->].
  destruct (plus_addable _ (Py.NInt (sqft_3 d)) Hs) as [? ->].
  destruct (plus_addable _ (Py.NFloat (5 # 10)) Ha) as [? ->].
  cbn [mbind result_bind]. rewrite Henrich, Hfalsy. cbn [mbind result_bind].
  eexists. split; [reflexivity|].
  unfold price_per_square_foot, nested.
  rewrite lookup_insert_ne by done. rewrite lookup_insert_eq. reflexivity.
Qed.

Lemma comparables_stage_null (enrich : pydict → result unit)
    (state : pydict) (d : comparables_draws) :
  state !! "square_footage" = Some VNone →
  comparables_stage enrich state d = Raise TypeError.
Proof.
  intros H. unfold comparables_stage, comparable_properties, Py.get_or.
  rewrite H. reflexivity.
Qed.

(** ** C9 *)

(** C9, checked on the code.  DataIntake counts a required attribute whose
    value is zero as missing, exactly as when the attribute is [None] or its
    key is absent.  ComparablesAnalysis divides by 2000 when the square
    footage is zero and when its key is absent (bedrooms and bathrooms
    being numbers or absent).  When the square footage is [None], which is
    how both entry points record an unknown one, ComparablesAnalysis raises
    [TypeError] while it builds its first comparable, in both variants, and
    no price per square foot is computed. *)
Theorem zero_attribute_counts_as_missing (llm : llm_oracle) (state : pydict)
    (d : comparables_draws) :
  (∀ field zero,
     In field required_fields → Py.truthy zero = false →
     In field (missing_fields (<[field := zero]> state))
     ∧ missing_fields (<[field := zero]> state)
       = missing_fields (<[field := VNone]> state)
     ∧ missing_fields (<[field := zero]> state)
       = missing_fields (delete field state))
  ∧ Py.truthy (VInt 0) = false ∧ Py.truthy (VFloat 0) = false
  ∧ (addable (Py.get_or state "bedrooms" (VInt 3)) →
     addable (Py.get_or state "bathrooms" (VInt 2)) →
     (∃ state', mock_comparable_properties_node
                  (<["square_footage" := VInt 0]> state) d = Ok state'
        ∧ price_per_square_foot state'
          = Some (VFloat (Py.fdiv (avg_price d) (inject_Z 2000))))
     ∧ (∃ state', mock_comparable_properties_node
                    (delete "square_footage" state) d = Ok state'
          ∧ price_per_square_foot state'
            = Some (VFloat (Py.fdiv (avg_price d) (inject_Z 2000)))))
  ∧ (state !! "square_footage" = Some VNone →
     mock_comparable_properties_node state d = Raise TypeError
     ∧ comparable_properties_node llm state d = Raise TypeError).
Proof.
  split; [|split; [reflexivity|split; [reflexivity|split]]].
  - intros field zero Hin Hz.
    destruct (missing_fields_falsy state field zero Hz) as [Hnone Hdel].
    split; [|by split].
    unfold missing_fields. apply filter_In. split; [done|].
    unfold Py.get. rewrite lookup_insert_eq. simpl. by rewrite Hz.
  - intros Hb Ha. split.
    + apply comparables_stage_fallback; try done.
      * unfold Py.get. by rewrite lookup_insert_eq.
      * unfold addable, Py.get_or. rewrite lookup_insert_eq. simpl. eauto.
      * unfold Py.get_or. by rewrite lookup_insert_ne.
      * unfold Py.get_or. by rewrite lookup_insert_ne.
    + apply comparables_stage_fallback; try done.
      * unfold Py.get. by rewrite lookup_delete_eq.
      * unfold addable, Py.get_or. rewrite lookup_delete_eq. simpl. eauto.
      * unfold Py.get_or. by rewrite lookup_delete_ne.
      * unfold Py.get_or. by rewrite lookup_delete_ne.
  - intros Hnull. split; by apply comparables_stage_null.
Qed.

Lemma zero_attribute_counts_as_missing_witness :
  unknown_square_footage_state !! "square_footage" = Some VNone
  ∧ missing_fields unknown_square_footage_state = ["square_footage"]
  ∧ mock_comparable_properties_node unknown_square_footage_state
      sample_comparables_draws = Raise TypeError
  ∧ comparable_properties_node llm_answers unknown_square_footage_state
      sample_comparables_draws = Raise TypeError.
Proof.
  assert (Hnull : unknown_square_footage_state !! "square_footage" = Some VNone)
    by reflexivity.
  split; [exact Hnull|]. split; [reflexivity|].
  destruct (zero_attribute_counts_as_missing llm_answers
              unknown_square_footage_state sample_comparables_draws)
    as (_ & _ & _ & _ & Hraises).
  exact (Hraises Hnull).
Defined.

(* ===================================================================== *)
(** * Runs of the two workflows                                           *)
(* ===================================================================== *)

Lemma invoke_linear (d : draws) (state : pydict) :
  invoke create_mock_property_valuation_workflow d state = linear_run d state.
Proof.
  unfold invoke, linear_run.
  change 25%nat with (S (S (S (S (S 20))))).
  change (entry_point create_mock_property_valuation_workflow)
    with data_collection.
  rewrite run_from_step.
  change (node create_mock_property_valuation_workflow data_collection d state)
    with (mock_property_data_collection_node state).
  destruct (mock_property_data_collection_node state) as [s1|e]; [|reflexivity].
  change (edge_from create_mock_property_valuation_workflow data_collection)
    with (add_edge (Some comparables)).
  cbv beta iota zeta. rewrite run_from_step.
  change (node create_mock_property_valuation_workflow comparables d s1)
    with (mock_comparable_properties_node s1 (comparables_of d)).
  destruct (mock_comparable_properties_node s1 (comparables_of d)) as [s2|e];
    [|reflexivity].
  change (edge_from create_mock_property_valuation_workflow comparables)
    with (add_edge (Some market_analysis)).
  cbv beta iota zeta. rewrite run_from_step.
  change (node create_mock_property_valuation_workflow market_analysis d s2)
    with (mock_market_analysis_node s2 (market_of d)).
  destruct (mock_market_analysis_node s2 (market_of d)) as [s3|e];
    [|reflexivity].
  change (edge_from create_mock_property_valuation_workflow market_analysis)
    with (add_edge (Some final_valuation)).
  cbv beta iota zeta. rewrite run_from_step.
  change (node create_mock_property_valuation_workflow final_valuation d s3)
    with (mock_final_valuation_node s3).
  destruct (mock_final_valuation_node s3) as [s4|e]; [|reflexivity].
  change (edge_from create_mock_property_valuation_workflow final_valuation)
    with (add_edge (Some a2a_communication)).
  cbv beta iota zeta. rewrite run_from_step.
  change (node create_mock_property_valuation_workflow a2a_communication d s4)
    with (mock_a2a_communication_node s4).
  destruct (mock_a2a_communication_node s4) as [s5|e]; reflexivity.
Qed.

Lemma router_without_errors (s1 : pydict) :
  log "errors" s1 = VList [] →
  should_continue_after_data_collection s1 = Ok ("comparables", s1).
Proof.
  unfold log, should_continue_after_data_collection. by intros ->.
Qed.

Lemma comparables_stage_Ok (enrich : pydict → result unit)
    (state state' : pydict) (d : comparables_draws) :
  comparables_stage enrich state d = Ok state' →
  ∃ comps per_sqft,
    comparable_properties state d = Ok comps
    ∧ enrich state = Ok tt
    ∧ avg_price_per_sqft state d = Ok per_sqft
    ∧ state' = <["current_step" := VStr "comparables_analyzed"]>
               (<["comparable_analysis" := comparable_analysis d per_sqft]>
               (<["comparable_properties" := VList comps]> state)).
Proof.
  unfold comparables_stage. intros H.
  apply bind_Ok in H as (comps & Hc & H).
  apply bind_Ok in H as ([] & He & H).
  apply bind_Ok in H as (per_sqft & Hp & H). injection H as <-.
  by exists comps, per_sqft.
Qed.

Lemma router_after_comparables_good (state s2 : pydict) (d : comparables_draws) :
  mock_comparable_properties_node state d = Ok s2 →
  should_continue_after_comparables s2 = Ok ("market_analysis", s2).
Proof.
  intros H. apply comparables_stage_Ok in H as (comps & per_sqft & _ & _ & _ & ->).
  unfold should_continue_after_comparables, Py.item.
  rewrite lookup_insert_ne by done. rewrite lookup_insert_eq. reflexivity.
Qed.

Lemma invoke_conditional_without_errors (d : draws) (state : pydict) :
  (∀ s1, mock_property_data_collection_node state = Ok s1 →
         log "errors" s1 = VList []) →
  invoke create_mock_conditional_property_valuation_workflow d state
  = linear_run d state.
Proof.
  intros Hclean. unfold invoke, linear_run.
  change 25%nat with (S (S (S (S (S 20))))).
  change (entry_point create_mock_conditional_property_valuation_workflow)
    with data_collection.
  rewrite run_from_step.
  change (node create_mock_conditional_property_valuation_workflow
            data_collection d state)
    with (mock_property_data_collection_node state).
  destruct (mock_property_data_collection_node state) as [s1|e] eqn:E1;
    [|reflexivity].
  change (edge_from create_mock_conditional_property_valuation_workflow
            data_collection)
    with (add_conditional_edges should_continue_after_data_collection
            [ ("comparables", comparables);
              ("a2a_communication", a2a_communication) ]).
  cbv beta iota zeta. rewrite (router_without_errors s1 (Hclean s1 eq_refl)).
  cbv beta iota.
  change (lookup_path "comparables"
            [("comparables", comparables);
             ("a2a_communication", a2a_communication)])
    with (Some comparables).
  cbv beta iota. rewrite run_from_step.
  change (node create_mock_conditional_property_valuation_workflow
            comparables d s1)
    with (mock_comparable_properties_node s1 (comparables_of d)).
  destruct (mock_comparable_properties_node s1 (comparables_of d))
    as [s2|e] eqn:E2; [|reflexivity].
  change (edge_from create_mock_conditional_property_valuation_workflow
            comparables)
    with (add_conditional_edges should_continue_after_comparables
            [ ("market_analysis", market_analysis) ]).
  cbv beta iota zeta. rewrite (router_after_comparables_good _ _ _ E2).
  cbv beta iota.
  change (lookup_path "market_analysis" [("market_analysis", market_analysis)])
    with (Some market_analysis).
  cbv beta iota. rewrite run_from_step.
  change (node create_mock_conditional_property_valuation_workflow
            market_analysis d s2)
    with (mock_market_analysis_node s2 (market_of d)).
  destruct (mock_market_analysis_node s2 (market_of d)) as [s3|e];
    [|reflexivity].
  change (edge_from create_mock_conditional_property_valuation_workflow
            market_analysis)
    with (add_edge (Some final_valuation)).
  cbv beta iota zeta. rewrite run_from_step.
  change (node create_mock_conditional_property_valuation_workflow
            final_valuation d s3)
    with (mock_final_valuation_node s3).
  destruct (mock_final_valuation_node s3) as [s4|e]; [|reflexivity].
  change (edge_from create_mock_conditional_property_valuation_workflow
            final_valuation)
    with (add_edge (Some a2a_communication)).
  cbv beta iota zeta. rewrite run_from_step.
  change (node create_mock_conditional_property_valuation_workflow
            a2a_communication d s4)
    with (mock_a2a_communication_node s4).
  destruct (mock_a2a_communication_node s4) as [s5|e]; reflexivity.
Qed.

(** X1. When DataIntake logs no error, the conditionally routed workflow
    runs exactly as the linear one: the same stages on the same records,
    with the same outcome.  The routing function after ComparablesAnalysis
    never appends its warning, the comparable quality being GOOD. *)
Theorem conditional_run_without_errors (d : draws) (state : pydict) :
  (∀ s1, mock_property_data_collection_node state = Ok s1 →
         log "errors" s1 = VList []) →
  invoke create_mock_conditional_property_valuation_workflow d state
  = invoke create_mock_property_valuation_workflow d state.
Proof.
  intros H. rewrite invoke_linear. by apply invoke_conditional_without_errors.
Qed.

Lemma conditional_run_without_errors_witness :
  (∀ s1, mock_property_data_collection_node sample_a2a_state = Ok s1 →
         log "errors" s1 = VList [])
  ∧ executed (invoke create_mock_conditional_property_valuation_workflow
                     sample_draws sample_a2a_state)
    = pipeline_order.
Proof.
  assert (H : ∀ s1, mock_property_data_collection_node sample_a2a_state = Ok s1 →
                    log "errors" s1 = VList []).
  { intros s1 Hs1. vm_compute in Hs1. injection Hs1 as <-. reflexivity. }
  split; [exact H|].
  rewrite (conditional_run_without_errors sample_draws sample_a2a_state H).
  vm_compute. reflexivity.
Defined.

(** X2. A run of the linear workflow executes the five stages in pipeline
    order, each once, and stops at the first stage that raises: the stages
    executed are the first [n] of the five, and the run returns a record
    exactly when all five were executed; the record it returns is the one
    ResponseDispatch returned. *)
Theorem linear_run_executes_prefix (d : draws) (state : pydict) :
  let r := invoke create_mock_property_valuation_workflow d state in
  ∃ n, (n ≤ 5)%nat
       ∧ executed r = take n pipeline_order
       ∧ ((∃ s, outcome r = Ok s) ↔ n = 5%nat)
       ∧ (∀ s, outcome r = Ok s →
               last (history r) = Some (a2a_communication, s)).
Proof.
  intros r. subst r. rewrite invoke_linear. unfold linear_run.
  destruct (mock_property_data_collection_node state) as [s1|e].
  2: { exists 0%nat. repeat split; try done; try lia.
       - by intros [s Hs]. }
  destruct (mock_comparable_properties_node s1 (comparables_of d)) as [s2|e].
  2: { exists 1%nat. repeat split; try done; try lia.
       - by intros [s Hs]. }
  destruct (mock_market_analysis_node s2 (market_of d)) as [s3|e].
  2: { exists 2%nat. repeat split; try done; try lia.
       - by intros [s Hs]. }
  destruct (mock_final_valuation_node s3) as [s4|e].
  2: { exists 3%nat. repeat split; try done; try lia.
       - by intros [s Hs]. }
  destruct (mock_a2a_communication_node s4) as [s5|e].
  2: { exists 4%nat. repeat split; try done; try lia.
       - by intros [s Hs]. }
  exists 5%nat. repeat split; try done; try lia.
  - eauto.
  - simpl. intros s Hs. by injection Hs as <-.
Qed.

(* ===================================================================== *)
(** * What a run keeps: the inputs and the logs                           *)
(* ===================================================================== *)

Lemma run_from_outcome (P : pydict → Prop) (w : workflow) (d : draws) :
  (∀ n s s', P s → node w n d s = Ok s' → P s') →
  (∀ n router path_map s label s',
     edge_from w n = add_conditional_edges router path_map →
     P s → router s = Ok (label, s') → P s') →
  ∀ limit n s done s',
    P s → outcome (run_from limit w d n s done) = Ok s' → P s'.
Proof.
  intros Hnode Hroute. induction limit as [|limit IH]; intros n s done s' Hs.
  - discriminate.
  - rewrite run_from_step.
    destruct (node w n d s) as [s1|e] eqn:En; [|discriminate].
    assert (Hs1 : P s1) by (by eapply Hnode).
    cbv zeta.
    destruct (edge_from w n) as [[next|] | router path_map] eqn:Ee.
    + by apply IH.
    + simpl. by intros [= <-].
    + destruct (router s1) as [[label s2]|e] eqn:Er; [|discriminate].
      destruct (lookup_path label path_map) as [next|]; [|discriminate].
      apply IH. by eapply Hroute.
Qed.

Lemma mock_nodes_writes (n : node_name) (d : draws) (state state' : pydict) :
  mock_nodes n d state = Ok state' → writes_only stage_keys state state'.
Proof.
  intros H. apply stage_returned_writes. exists llm_answers, n, d. by left.
Qed.

Lemma mock_workflow_writes (w : workflow) (d : draws) (state : pydict) :
  w = create_mock_property_valuation_workflow
  ∨ w = create_mock_conditional_property_valuation_workflow →
  Forall (λ entry, writes_only stage_keys state (snd entry))
         (history (invoke w d state))
  ∧ (∀ s, outcome (invoke w d state) = Ok s → writes_only stage_keys state s).
Proof.
  intros Hw.
  assert (Hnode : ∀ n s s', writes_only stage_keys state s →
                            node w n d s = Ok s' →
                            writes_only stage_keys state s').
  { intros n s s' Hs Hn. eapply writes_only_trans; [exact Hs|].
    apply (mock_nodes_writes n d). by destruct Hw as [-> | ->]. }
  assert (Hroute : ∀ n router path_map s label s',
            edge_from w n = add_conditional_edges router path_map →
            writes_only stage_keys state s → router s = Ok (label, s') →
            writes_only stage_keys state s').
  { intros n router path_map s label s' He Hs Hr.
    destruct Hw as [-> | ->]; destruct n; simpl in He; try discriminate.
    - injection He as <- _.
      by rewrite (router_after_data_collection_same _ _ _ Hr).
    - injection He as <- _. eapply writes_only_trans; [exact Hs|].
      eapply writes_only_mono; [|by eapply router_after_comparables_writes].
      unfold stage_keys. in_keys. }
  split.
  - unfold invoke.
    apply run_from_invariant;
      [exact Hnode | exact Hroute | apply writes_only_refl | constructor].
  - intros s. unfold invoke.
    apply (run_from_outcome (writes_only stage_keys state));
      [exact Hnode | exact Hroute | apply writes_only_refl].
Qed.

Lemma input_keys_not_written (k : string) : k ∈ input_keys → k ∉ stage_keys.
Proof.
  intros Hk. unfold input_keys in Hk.
  repeat (apply elem_of_cons in Hk as [-> | Hk];
          [unfold stage_keys; in_keys|]).
  by apply elem_of_nil in Hk.
Qed.

(** X3. No stage and no routing function of either offline workflow
    touches the caller's inputs: after every stage of a run, and in the
    record the run returns, the property's address, type, square footage,
    bedrooms, bathrooms, year built and lot size, the request id and the
    requesting agent are as in the initial record (present with the same
    value, or absent as before). *)
Theorem run_keeps_inputs (d : draws) (state : pydict) (k : string) :
  k ∈ input_keys →
  (Forall (λ entry, snd entry !! k = state !! k)
          (history (invoke create_mock_property_valuation_workflow d state))
   ∧ ∀ s, outcome (invoke create_mock_property_valuation_workflow d state)
          = Ok s → s !! k = state !! k)
  ∧ (Forall (λ entry, snd entry !! k = state !! k)
            (history (invoke create_mock_conditional_property_valuation_workflow
                             d state))
     ∧ ∀ s, outcome (invoke create_mock_conditional_property_valuation_workflow
                            d state) = Ok s → s !! k = state !! k).
Proof.
  intros Hk. apply input_keys_not_written in Hk.
  split.
  - destruct (mock_workflow_writes create_mock_property_valuation_workflow
                d state) as [Hh Ho]; [by left|].
    split.
    + eapply Forall_impl; [exact Hh|]. intros entry H. by apply H.
    + intros s Hs. by apply (Ho s Hs).
  - destruct (mock_workflow_writes
                create_mock_conditional_property_valuation_workflow d state)
      as [Hh Ho]; [by right|].
    split.
    + eapply Forall_impl; [exact Hh|]. intros entry H. by apply H.
    + intros s Hs. by apply (Ho s Hs).
Qed.

Lemma run_keeps_inputs_witness :
  "request_id" ∈ input_keys
  ∧ ∀ s, outcome (invoke create_mock_property_valuation_workflow sample_draws
                         sample_a2a_state) = Ok s →
         s !! "request_id" = Some (VStr "req-0001").
Proof.
  assert (Hk : "request_id" ∈ input_keys) by compute_done.
  split; [exact Hk|].
  destruct (run_keeps_inputs sample_draws sample_a2a_state "request_id" Hk)
    as [[_ Ho] _].
  exact Ho.
Defined.

Lemma grows_by_refl (k : string) (state : pydict) : grows_by 0 k state state.
Proof. intros l Hl. exists []. by rewrite app_nil_r. Qed.

Lemma grows_by_same (n : nat) (k : string) (state state' : pydict) :
  state' !! k = state !! k → grows_by n k state state'.
Proof.
  intros H l Hl. exists []. rewrite app_nil_r. split; [|simpl; lia].
  unfold log, Py.get_or in *. by rewrite H.
Qed.

Lemma grows_by_trans (n m : nat) (k : string) (s1 s2 s3 : pydict) :
  grows_by n k s1 s2 → grows_by m k s2 s3 → grows_by (n + m) k s1 s3.
Proof.
  intros H12 H23 l Hl.
  destruct (H12 l Hl) as (a & Ha & Hna).
  destruct (H23 _ Ha) as (b & Hb & Hnb).
  exists (a ++ b). rewrite app_assoc. split; [done|].
  rewrite length_app. lia.
Qed.

Lemma grows_by_mono (n m : nat) (k : string) (s1 s2 : pydict) :
  (n ≤ m)%nat → grows_by n k s1 s2 → grows_by m k s1 s2.
Proof.
  intros Hnm H l Hl. destruct (H l Hl) as (a & Ha & Hna).
  exists a. split; [done | lia].
Qed.

Lemma grows_by_ensure_list (k k' : string) (state : pydict) :
  grows_by 0 k state (ensure_list k' state).
Proof.
  unfold ensure_list. destruct (state !! k') as [v|] eqn:E.
  - apply grows_by_refl.
  - intros l Hl. exists []. rewrite app_nil_r. split; [|done].
    unfold log, Py.get_or in *.
    destruct (decide (k = k')) as [-> | Hne].
    + rewrite lookup_insert_eq. by rewrite E in Hl.
    + by rewrite lookup_insert_ne.
Qed.

Lemma grows_by_append_to (k k' : string) (x : value) (state state' : pydict) :
  append_to k' x state = Ok state' → grows_by 1 k state state'.
Proof.
  unfold append_to. intros H.
  destruct (state !! k') as [[| | | | |l'|]|] eqn:E; try discriminate.
  injection H as <-. intros l Hl. unfold log, Py.get_or in *.
  destruct (decide (k = k')) as [-> | Hne].
  - rewrite lookup_insert_eq. rewrite E in Hl. simpl in Hl.
    injection Hl as ->. exists [x]. by split.
  - rewrite lookup_insert_ne by done. exists []. rewrite app_nil_r.
    split; [done | simpl; lia].
Qed.

Lemma grows_by_step (k : string) (state : pydict) (v : value) :
  k ≠ "current_step" →
  grows_by 0 k state (<["current_step" := v]> state).
Proof. intros H. apply grows_by_same. by rewrite lookup_insert_ne. Qed.

Lemma grows_by_writes (keys : list string) (k : string) (state state' : pydict) :
  k ∉ keys → writes_only keys state state' → grows_by 1 k state state'.
Proof. intros Hk Hw. apply grows_by_same. by apply Hw. Qed.
